(** * cloudbridge: the OpenStack provider services and the GCE key-pair helper

    A shallow embedding of
      - [cloudbridge/providers/openstack/services.py]
      - [cloudbridge/cloud/providers/gce/helpers.py]
    Service methods are computations that talk to the vendor clients ([nova],
    [cinder]) held by the provider; a computation yields an outcome (a value or
    a raised exception) together with the client calls it issued, in order. *)

From Stdlib Require Import List String ZArith Bool Lia.
Import ListNotations.
Local Open Scope string_scope.
Local Open Scope list_scope.
Set Warnings "-register-all,-notation-for-abbreviation".

(* ================================================================== *)
(** ** Python values *)

(** The cloudbridge classes the services name: interface classes tested with
    [isinstance], and the classes they instantiate. *)
Inductive class : Type :=
  (* cloudbridge.providers.interfaces *)
  | MachineImage | InstanceType | PlacementZone | KeyPair | SecurityGroup
  (* cloudbridge.providers.base *)
  | BaseKeyPair | BaseSecurityGroup
  (* .resources *)
  | OpenStackInstance | OpenStackInstanceType | OpenStackMachineImage
  | OpenStackRegion | OpenStackSnapshot | OpenStackVolume.

Definition class_eqb (c d : class) : bool :=
  match c, d with
  | MachineImage, MachineImage | InstanceType, InstanceType
  | PlacementZone, PlacementZone | KeyPair, KeyPair
  | SecurityGroup, SecurityGroup | BaseKeyPair, BaseKeyPair
  | BaseSecurityGroup, BaseSecurityGroup
  | OpenStackInstance, OpenStackInstance
  | OpenStackInstanceType, OpenStackInstanceType
  | OpenStackMachineImage, OpenStackMachineImage
  | OpenStackRegion, OpenStackRegion
  | OpenStackSnapshot, OpenStackSnapshot
  | OpenStackVolume, OpenStackVolume => true
  | _, _ => false
  end.

(** Dynamically typed values.  [Resource] is a record handed out by a vendor
    client (its attribute dictionary); [New c args] is the object built by
    calling the cloudbridge class [c] on [args]; [Provider] is the provider
    context every service holds as [self.provider]. *)
Inductive value : Type :=
  | PyNone
  | PyInt (n : Z)
  | PyStr (s : string)
  | PyList (xs : list value)
  | Resource (fields : list (string * value))
  | Provider
  | New (c : class) (args : list value).

(** Truth value testing ([if sg:], [if security_groups:], [... and snapshot]). *)
Definition truthy (v : value) : bool :=
  match v with
  | PyNone => false
  | PyInt n => negb (n =? 0)%Z
  | PyStr s => negb (s =? EmptyString)
  | PyList xs => match xs with [] => false | _ :: _ => true end
  | Resource _ | Provider | New _ _ => true
  end.

(** [isinstance(v, list)]. *)
Definition is_list (v : value) : bool :=
  match v with PyList _ => true | _ => false end.

(** [v[0]]; the services subscript only a truthy list, which has a head. *)
Definition item0 (v : value) : value :=
  match v with PyList (x :: _) => x | _ => PyNone end.

(** [a == b].  [None], numbers and strings compare by value, lists element by
    element, and a value of one of these kinds is not equal to a record or an
    object.  Whether two records or objects are equal is decided by the
    [__eq__] of their classes, or by identity when they define none; these
    classes are outside the sources and the values here carry no identity, so
    [object_eq] stands for that comparison. *)
Fixpoint py_eq (object_eq : value -> value -> bool) (a b : value) {struct a} : bool :=
  match a, b with
  | PyNone, PyNone => true
  | PyInt m, PyInt n => (m =? n)%Z
  | PyStr s, PyStr t => (s =? t)
  | PyList xs, PyList ys =>
      (fix all2 (xs ys : list value) {struct xs} : bool :=
         match xs, ys with
         | [], [] => true
         | x :: xs', y :: ys' => py_eq object_eq x y && all2 xs' ys'
         | _, _ => false
         end) xs ys
  | (Resource _ | Provider | New _ _), (Resource _ | Provider | New _ _) =>
      object_eq a b
  | _, _ => false
  end.

(** Attribute dictionary lookup of a vendor record. *)
Fixpoint lookup (a : string) (fields : list (string * value)) : option value :=
  match fields with
  | [] => None
  | (k, v) :: rest => if k =? a then Some v else lookup a rest
  end.

(* ================================================================== *)
(** ** Outcomes and exceptions *)

Inductive exn : Type :=
  | NovaNotFound                       (* novaclient.exceptions.NotFound *)
  | CinderNotFound                     (* cinderclient.exceptions.NotFound *)
  | NotImplementedError (msg : string)
  | AttributeError (attr : string)     (* the attribute that was missing *)
  | TypeError                          (* iterating a non-iterable *)
  | BackendError (msg : string).       (* any other failure of a vendor client *)

Inductive result (A : Type) : Type :=
  | Ok (a : A)
  | Raise (e : exn).
Arguments Ok {A} a.
Arguments Raise {A} e.

(** [except NovaNotFound:] and [except CinderNotFound:]. *)
Definition isNovaNotFound (e : exn) : bool :=
  match e with NovaNotFound => true | _ => false end.
Definition isCinderNotFound (e : exn) : bool :=
  match e with CinderNotFound => true | _ => false end.

(* ================================================================== *)
(** ** Computations that call an external library

    A computation of type [M C A] receives the calls (of type [C]) already made
    to the library, and yields its outcome and the calls it issued itself. *)

Section Effects.
Context {C : Type}.

Definition M (A : Type) : Type := list C -> result A * list C.

Definition ret {A} (a : A) : M A := fun _ => (Ok a, []).

Definition raise {A} (e : exn) : M A := fun _ => (Raise e, []).

Definition lift {A} (r : result A) : M A := fun _ => (r, []).

Definition bind {A B} (m : M A) (f : A -> M B) : M B :=
  fun h =>
    match m h with
    | (Ok a, t) => let (r, t') := f a (h ++ t) in (r, t ++ t')
    | (Raise e, t) => (Raise e, t)
    end.

(** [try: m  except <catches>: handler]. *)
Definition try_except {A} (m : M A) (catches : exn -> bool) (handler : M A) : M A :=
  fun h =>
    match m h with
    | (Ok a, t) => (Ok a, t)
    | (Raise e, t) =>
        if catches e
        then let (r, t') := handler (h ++ t) in (r, t ++ t')
        else (Raise e, t)
    end.

(** One call to the library; [reply] answers a call given the earlier ones. *)
Definition invoke {R} (reply : list C -> C -> result R) (c : C) : M R :=
  fun h => (reply h c, [c]).
End Effects.
Arguments M C A : clear implicits.

Notation "x <- m ;; k" := (bind m (fun x => k))
  (at level 61, m at next level, right associativity).

(** [[f(x) for x in xs]]. *)
Fixpoint mapM {C A B} (f : A -> M C B) (xs : list A) : M C (list B) :=
  match xs with
  | [] => ret []
  | x :: rest => y <- f x ;; ys <- mapM f rest ;; ret (y :: ys)
  end.

(* ================================================================== *)
(** ** The vendor clients

    One constructor per client method the services call, with the arguments of
    the call ([provider.nova...] and [provider.cinder...]). *)

Inductive call : Type :=
  | nova_keypairs_list
  | nova_security_groups_list
  | nova_security_groups_create (name description : value)
  | nova_security_groups_get (group_id : value)
  | nova_images_get (image_id : value)
  | nova_images_list
  | nova_flavors_list
  | cinder_volumes_get (volume_id : value)
  | cinder_volumes_list
  | cinder_volumes_create (size name availability_zone snapshot_id : value)
  | cinder_volume_snapshots_get (snapshot_id : value)
  | cinder_volume_snapshots_list
  | cinder_volume_snapshots_create (volume_id name description : value)
  | nova_servers_create (name image flavor : value) (min_count max_count : Z)
      (availability_zone key_name security_groups userdata : value)
  | nova_servers_list
  | nova_servers_get (instance_id : value)
  | nova_availability_zones_list (detailed : bool).

Definition is_servers_create (c : call) : bool :=
  match c with nova_servers_create _ _ _ _ _ _ _ _ _ => true | _ => false end.

(** The [security_groups] keyword of a [servers.create] call. *)
Definition security_groups_of (c : call) : option value :=
  match c with
  | nova_servers_create _ _ _ _ _ _ _ sgs _ => Some sgs
  | _ => None
  end.

(** A backend answers a call, given the calls made before it. *)
Definition backend_t : Type := list call -> call -> result value.

(* ================================================================== *)
(** ** The services of [providers/openstack/services.py] *)

Section Services.
(** The vendor clients held by the provider. *)
Variable backend : backend_t.
(** The class declarations of [cloudbridge.providers.interfaces], [.base] and
    [.resources] are outside these sources: [subclass c d] says that class [c]
    is [d] or derives from it, and [class_attr c args a] is attribute [a] of
    the object [c(args)], when it has one. *)
Variable subclass : class -> class -> bool.
Variable class_attr : class -> list value -> string -> option value.
(** [object_eq a b] is [a == b] for two records or objects, as their classes
    define it. *)
Variable object_eq : value -> value -> bool.

Definition isinstance (v : value) (c : class) : bool :=
  match v with
  | New d _ => subclass d c
  | _ => false
  end.

(** [v.a] for the attributes the services read ([id], [name], [description],
    [image_id], [volume_id], [snapshot_id]); [None], numbers, strings and
    lists have none of them. *)
Definition getattr (v : value) (a : string) : result value :=
  match v with
  | Resource fields =>
      match lookup a fields with
      | Some x => Ok x
      | None => Raise (AttributeError a)
      end
  | New c args =>
      match class_attr c args a with
      | Some x => Ok x
      | None => Raise (AttributeError a)
      end
  | _ => Raise (AttributeError a)
  end.

Definition attr (v : value) (a : string) : M call value := lift (getattr v a).

(** [for x in v]: the elements of a list, the characters of a string. *)
Definition iter (v : value) : M call (list value) :=
  match v with
  | PyList xs => ret xs
  | PyStr s => ret (map (fun ch => PyStr (String ch EmptyString)) (list_ascii_of_string s))
  | _ => raise TypeError
  end.

Definition nova_cinder (c : call) : M call value := invoke backend c.

(** *** OpenStackKeyPairService *)

Definition KeyPairService_list : M call value :=
  key_pairs <- nova_cinder nova_keypairs_list ;;
  kps <- iter key_pairs ;;
  l <- mapM (fun kp => i <- attr kp "id" ;; ret (New BaseKeyPair [i])) kps ;;
  ret (PyList l).

(** *** OpenStackSecurityGroupService *)

Definition SecurityGroupService_list : M call value :=
  groups <- nova_cinder nova_security_groups_list ;;
  gs <- iter groups ;;
  l <- mapM (fun group =>
               i <- attr group "id" ;;
               n <- attr group "name" ;;
               d <- attr group "description" ;;
               ret (New BaseSecurityGroup [i; n; d])) gs ;;
  ret (PyList l).

Definition SecurityGroupService_create (name description : value) : M call value :=
  sg <- nova_cinder (nova_security_groups_create name description) ;;
  if truthy sg then
    i <- attr sg "id" ;;
    ret (New BaseSecurityGroup [i; name; description])
  else ret PyNone.

Definition SecurityGroupService_get (group_id : value) : M call value :=
  sg <- nova_cinder (nova_security_groups_get group_id) ;;
  if truthy sg then
    i <- attr sg "id" ;;
    n <- attr sg "name" ;;
    d <- attr sg "description" ;;
    ret (New BaseSecurityGroup [i; n; d])
  else ret PyNone.

(** *** OpenStackImageService *)

Definition get_image (image_id : value) : M call value :=
  try_except
    (os_image <- nova_cinder (nova_images_get image_id) ;;
     ret (New OpenStackMachineImage [Provider; os_image]))
    isNovaNotFound
    (ret PyNone).

Definition find_image (name : value) : M call value :=
  raise (NotImplementedError "find_image not implemented by this provider").

Definition list_images : M call value :=
  images <- nova_cinder nova_images_list ;;
  imgs <- iter images ;;
  ret (PyList (map (fun image => New OpenStackMachineImage [Provider; image]) imgs)).

(** *** OpenStackInstanceTypesService *)

Definition InstanceTypesService_list : M call value :=
  flavors <- nova_cinder nova_flavors_list ;;
  fs <- iter flavors ;;
  ret (PyList (map (fun f => New OpenStackInstanceType [f]) fs)).

(** [next((itype for itype in l if itype.name == name), None)]: the generator
    is consumed up to its first element that passes the test. *)
Fixpoint next_named (name : value) (l : list value) : M call value :=
  match l with
  | [] => ret PyNone
  | itype :: rest =>
      n <- attr itype "name" ;;
      if py_eq object_eq n name then ret itype else next_named name rest
  end.

Definition find_by_name (name : value) : M call value :=
  l <- InstanceTypesService_list ;;
  itypes <- iter l ;;
  next_named name itypes.

(** *** OpenStackVolumeService *)

Definition get_volume (volume_id : value) : M call value :=
  try_except
    (os_vol <- nova_cinder (cinder_volumes_get volume_id) ;;
     ret (New OpenStackVolume [Provider; os_vol]))
    isCinderNotFound
    (ret PyNone).

Definition find_volume (name : value) : M call value :=
  raise (NotImplementedError "find_volume not implemented by this provider").

Definition list_volumes : M call value :=
  vols <- nova_cinder cinder_volumes_list ;;
  vs <- iter vols ;;
  ret (PyList (map (fun vol => New OpenStackVolume [Provider; vol]) vs)).

Definition create_volume (name size zone snapshot : value) : M call value :=
  zone_name <- (if isinstance zone PlacementZone
                then attr zone "name" else ret zone) ;;
  snapshot_id <- (if isinstance zone OpenStackSnapshot && truthy snapshot
                  then attr snapshot "snapshot_id" else ret snapshot) ;;
  os_vol <- nova_cinder (cinder_volumes_create size name zone_name snapshot_id) ;;
  ret (New OpenStackVolume [Provider; os_vol]).

(** *** OpenStackSnapshotService *)

Definition get_snapshot (snapshot_id : value) : M call value :=
  try_except
    (os_snap <- nova_cinder (cinder_volume_snapshots_get snapshot_id) ;;
     ret (New OpenStackSnapshot [Provider; os_snap]))
    isCinderNotFound
    (ret PyNone).

Definition find_snapshot (name : value) : M call value :=
  raise (NotImplementedError "find_volume not implemented by this provider").

Definition list_snapshots : M call value :=
  snaps <- nova_cinder cinder_volume_snapshots_list ;;
  ss <- iter snaps ;;
  ret (PyList (map (fun snap => New OpenStackSnapshot [Provider; snap]) ss)).

Definition create_snapshot (name volume description : value) : M call value :=
  volume_id <- (if isinstance volume OpenStackVolume
                then attr volume "volume_id" else ret volume) ;;
  os_snap <- nova_cinder (cinder_volume_snapshots_create volume_id name description) ;;
  ret (New OpenStackSnapshot [Provider; os_snap]).

(** *** OpenStackComputeService *)

(** [block_device_mapping], [network_interfaces] and the keyword bag are
    accepted and never read. *)
Definition create_instance
    (name image instance_type zone keypair security_groups user_data
     block_device_mapping network_interfaces : value)
    (kwargs : list (string * value)) : M call value :=
  image_id <- (if isinstance image MachineImage
               then attr image "image_id" else ret image) ;;
  instance_size <- (if isinstance instance_type InstanceType
                    then attr instance_type "name"
                    else itype <- find_by_name instance_type ;; attr itype "id") ;;
  zone_name <- (if isinstance zone PlacementZone
                then attr zone "name" else ret zone) ;;
  keypair_name <- (if isinstance keypair KeyPair
                   then attr keypair "name" else ret keypair) ;;
  security_groups_list <-
    (if truthy security_groups then
       if is_list security_groups && isinstance (item0 security_groups) SecurityGroup
       then sgs <- iter security_groups ;;
            names <- mapM (fun sg => attr sg "name") sgs ;;
            ret (PyList names)
       else ret security_groups
     else ret PyNone) ;;
  os_instance <- nova_cinder
    (nova_servers_create name image_id instance_size 1 1
       zone_name keypair_name security_groups_list user_data) ;;
  ret (New OpenStackInstance [Provider; os_instance]).

Definition list_instances : M call value :=
  instances <- nova_cinder nova_servers_list ;;
  insts <- iter instances ;;
  ret (PyList (map (fun instance => New OpenStackInstance [Provider; instance]) insts)).

Definition list_regions : M call value :=
  regions <- nova_cinder (nova_availability_zones_list false) ;;
  rs <- iter regions ;;
  ret (PyList (map (fun region => New OpenStackRegion [Provider; region]) rs)).

Definition get_instance (instance_id : value) : M call value :=
  try_except
    (os_instance <- nova_cinder (nova_servers_get instance_id) ;;
     ret (New OpenStackInstance [Provider; os_instance]))
    isNovaNotFound
    (ret PyNone).

End Services.

(* ================================================================== *)
(** ** [generate_key_pair] of [cloud/providers/gce/helpers.py] *)

Module Encoding.
Inductive t : Type := PEM | DER | OpenSSH | Raw | X962 | SMIME.
End Encoding.

Module PrivateFormat.
Inductive t : Type := PKCS8 | TraditionalOpenSSL | Raw | OpenSSH | PKCS12.
End PrivateFormat.

Module PublicFormat.
Inductive t : Type :=
  SubjectPublicKeyInfo | PKCS1 | OpenSSH | Raw | CompressedPoint | UncompressedPoint.
End PublicFormat.

(** [serialization.NoEncryption()] and [serialization.BestAvailableEncryption(pw)]. *)
Inductive KeySerializationEncryption : Type :=
  | NoEncryption
  | BestAvailableEncryption (password : string).

Section KeyPairHelper.
(** What the [cryptography] package hands out: backends, keys, byte strings. *)
Variable obj : Type.

Inductive crypto_call : Type :=
  | default_backend
  | rsa_generate_private_key (backend : obj) (public_exponent key_size : Z)
  | private_bytes (key : obj) (encoding : Encoding.t) (format : PrivateFormat.t)
      (encryption_algorithm : KeySerializationEncryption)
  | public_key (key : obj)
  | public_bytes (key : obj) (encoding : Encoding.t) (format : PublicFormat.t).

(** The [cryptography] package. *)
Variable crypto : list crypto_call -> crypto_call -> result obj.

Definition generate_key_pair : M crypto_call (obj * obj) :=
  be <- invoke crypto default_backend ;;
  key_pair <- invoke crypto (rsa_generate_private_key be 65537 2048) ;;
  private_key <- invoke crypto
    (private_bytes key_pair Encoding.PEM PrivateFormat.PKCS8 NoEncryption) ;;
  pk <- invoke crypto (public_key key_pair) ;;
  public_key <- invoke crypto (public_bytes pk Encoding.OpenSSH PublicFormat.OpenSSH) ;;
  ret (private_key, public_key).

(** A call asks for nothing but a 2048-bit key, an unencrypted PKCS8 PEM
    private part and an OpenSSH public part. *)
Definition key_pair_call_ok (c : crypto_call) : Prop :=
  match c with
  | default_backend | public_key _ => True
  | rsa_generate_private_key _ e n => e = 65537%Z /\ n = 2048%Z
  | private_bytes _ enc fmt alg =>
      enc = Encoding.PEM /\ fmt = PrivateFormat.PKCS8 /\ alg = NoEncryption
  | public_bytes _ enc fmt =>
      enc = Encoding.OpenSSH /\ fmt = PublicFormat.OpenSSH
  end.
End KeyPairHelper.
Arguments default_backend {obj}.
Arguments rsa_generate_private_key {obj}.
Arguments private_bytes {obj}.
Arguments public_key {obj}.
Arguments public_bytes {obj}.
Arguments generate_key_pair {obj}.
Arguments key_pair_call_ok {obj}.

(* ================================================================== *)
(** ** A class table and backends for concrete runs *)

(** Modelled from the spec: the class declarations of [cloudbridge.providers]
    ([interfaces], [base], [openstack.resources]) are not among the sources.
    This table gives every class the fields of the spec's data model: each
    OpenStack resource class derives from the interface of its kind and reads
    its fields off the vendor record it wraps. *)
Definition std_subclass (c d : class) : bool :=
  class_eqb c d ||
  match c, d with
  | BaseKeyPair, KeyPair
  | BaseSecurityGroup, SecurityGroup
  | OpenStackMachineImage, MachineImage
  | OpenStackInstanceType, InstanceType => true
  | _, _ => false
  end.

Definition record_field (r : value) (a : string) : option value :=
  match r with Resource fields => lookup a fields | _ => None end.

(** Modelled from the spec: the attributes of the classes declared outside the
    sources, after the field sets of the spec's data model. *)
Definition std_class_attr (c : class) (args : list value) (a : string) : option value :=
  match c, args with
  | (KeyPair | BaseKeyPair), [n] =>
      if (a =? "name") || (a =? "id") then Some n else None
  | (SecurityGroup | BaseSecurityGroup), [i; n; d] =>
      if a =? "id" then Some i
      else if a =? "name" then Some n
      else if a =? "description" then Some d else None
  | PlacementZone, [n] => if a =? "name" then Some n else None
  | (MachineImage | OpenStackMachineImage), [_; r] =>
      if a =? "image_id" then record_field r "id"
      else if a =? "name" then record_field r "name" else None
  | (InstanceType | OpenStackInstanceType), [r] =>
      if a =? "id" then record_field r "id"
      else if a =? "name" then record_field r "name" else None
  | OpenStackVolume, [_; r] =>
      if a =? "volume_id" then record_field r "id"
      else if a =? "name" then record_field r "name" else None
  | OpenStackSnapshot, [_; r] =>
      if a =? "snapshot_id" then record_field r "id"
      else if a =? "name" then record_field r "name" else None
  | OpenStackInstance, [_; r] =>
      if a =? "instance_id" then record_field r "id"
      else if a =? "name" then record_field r "name" else None
  | OpenStackRegion, [_; r] =>
      if a =? "name" then record_field r "zoneName" else None
  | _, _ => None
  end.

(** The [==] of two records or objects in the concrete runs: vendor records
    are equal when they carry the same [id], and nothing else is.  The runs
    below only ever compare strings. *)
Definition std_object_eq (a b : value) : bool :=
  match a, b with
  | Resource f, Resource g =>
      match lookup "id" f, lookup "id" g with
      | Some (PyStr i), Some (PyStr j) => i =? j
      | _, _ => false
      end
  | _, _ => false
  end.

(** A backend that knows no identifier at all: every [get] is answered with the
    client's not-found exception, every listing is empty. *)
Definition empty_backend : backend_t :=
  fun _ c =>
    match c with
    | nova_security_groups_get _ | nova_images_get _ | nova_servers_get _ =>
        Raise NovaNotFound
    | cinder_volumes_get _ | cinder_volume_snapshots_get _ => Raise CinderNotFound
    | nova_keypairs_list | nova_security_groups_list | nova_images_list
    | nova_flavors_list | cinder_volumes_list | cinder_volume_snapshots_list
    | nova_servers_list | nova_availability_zones_list _ => Ok (PyList [])
    | _ => Raise (BackendError "quota exceeded")
    end.

Definition flavor (i n : string) : value :=
  Resource [("id", PyStr i); ("name", PyStr n)].

(** A backend with three flavors, two of them named alike, that creates
    whatever it is asked for and answers with a record of the request. *)
Definition demo_backend : backend_t :=
  fun _ c =>
    match c with
    | nova_flavors_list =>
        Ok (PyList [flavor "1" "m1.tiny"; flavor "2" "m1.small"; flavor "7" "m1.small"])
    | nova_security_groups_create n d =>
        Ok (Resource [("id", PyStr "sg-1"); ("name", n); ("description", d)])
    | cinder_volumes_create sz n z s =>
        Ok (Resource [("id", PyStr "vol-1"); ("name", n); ("size", sz);
                      ("availability_zone", z); ("snapshot_id", s)])
    | cinder_volume_snapshots_create v n d =>
        Ok (Resource [("id", PyStr "snap-1"); ("volume_id", v); ("name", n);
                      ("description", d)])
    | nova_servers_create n i f _ _ z k sgs ud =>
        Ok (Resource [("id", PyStr "srv-1"); ("name", n); ("image", i); ("flavor", f)])
    | nova_availability_zones_list _ =>
        Ok (PyList [Resource [("zoneName", PyStr "nova")]])
    | _ => empty_backend [] c
    end.

(** The instance types of [demo_backend]: two of them are called [m1.small]. *)
Definition demo_itypes : list value :=
  [New OpenStackInstanceType [flavor "1" "m1.tiny"];
   New OpenStackInstanceType [flavor "2" "m1.small"];
   New OpenStackInstanceType [flavor "7" "m1.small"]].

(** A backend whose create calls come back empty. *)
Definition refusing_backend : backend_t :=
  fun h c =>
    match c with
    | nova_security_groups_create _ _ | cinder_volumes_create _ _ _ _
    | cinder_volume_snapshots_create _ _ _
    | nova_servers_create _ _ _ _ _ _ _ _ _ => Ok PyNone
    | _ => demo_backend h c
    end.

(** Sample domain objects. *)
Definition snapshot1 : value :=
  New OpenStackSnapshot [Provider; Resource [("id", PyStr "snap-1"); ("name", PyStr "nightly")]].
Definition volume1 : value :=
  New OpenStackVolume [Provider; Resource [("id", PyStr "vol-1"); ("name", PyStr "data")]].
Definition image1 : value :=
  New OpenStackMachineImage [Provider; Resource [("id", PyStr "img-1"); ("name", PyStr "ubuntu")]].
Definition small : value := New OpenStackInstanceType [flavor "2" "m1.small"].
Definition zone1 : value := New PlacementZone [PyStr "nova"].
Definition keypair1 : value := New BaseKeyPair [PyStr "mykey"].
Definition web : value :=
  New BaseSecurityGroup [PyStr "sg-1"; PyStr "web"; PyStr "http and https"].
Definition db : value :=
  New BaseSecurityGroup [PyStr "sg-2"; PyStr "db"; PyStr "postgres"].

(** A [cryptography] package over numbered objects: the [n]-th call is
    answered with object [n]. *)
Definition counting_crypto : list (crypto_call nat) -> crypto_call nat -> result nat :=
  fun h _ => Ok (List.length h).

(* ================================================================== *)
(** ** Reading a trace of client calls *)

(** The [servers.create] calls of a trace. *)
Definition servers_create_calls (t : list call) : list call :=
  filter is_servers_create t.

(** The flavor argument of a [servers.create] call. *)
Definition flavor_of (c : call) : option value :=
  match c with
  | nova_servers_create _ _ f _ _ _ _ _ _ => Some f
  | _ => None
  end.

Definition is_flavors_list (c : call) : bool :=
  match c with nova_flavors_list => true | _ => false end.

(** A computation that never issues a call of the kind [p]. *)
Definition avoids {A} (p : call -> bool) (m : M call A) : Prop :=
  forall h, filter p (snd (m h)) = [].

(** A computation that never asks the backend to create a server. *)
Definition quiet {A} (m : M call A) : Prop := avoids is_servers_create m.

(** An outcome of [create_instance]: either it raised before any server was
    asked for, or exactly one [servers.create] call went out and it satisfies
    [P]. *)
Definition creates_with {A} (P : call -> Prop) (out : result A * list call) : Prop :=
  (servers_create_calls (snd out) = [] /\ exists e, fst out = Raise e)
  \/ (exists c, servers_create_calls (snd out) = [c] /\ P c).

(** [v] is not called [s]: it has a name, and the name is not the string [s]. *)
Definition named_otherwise
    (class_attr : class -> list value -> string -> option value)
    (s : string) (v : value) : Prop :=
  exists n, getattr class_attr v "name" = Ok n /\ n <> PyStr s.

(** [sg] is a domain security group called [n]. *)
Definition security_group_named
    (subclass : class -> class -> bool)
    (class_attr : class -> list value -> string -> option value)
    (sg : value) (n : string) : Prop :=
  isinstance subclass sg SecurityGroup = true
  /\ getattr class_attr sg "name" = Ok (PyStr n).

(** A [servers.create] call for one server called [name] with the user data
    [user_data]. *)
Definition single_server_request (name user_data : value) (c : call) : Prop :=
  match c with
  | nova_servers_create n _ _ lo hi _ _ _ ud =>
      n = name /\ lo = 1%Z /\ hi = 1%Z /\ ud = user_data
  | _ => False
  end.

(** The outcome of an operation that ends with the client call [c]: the
    record the client answers with, wrapped in class [K], or the exception the
    client raised. *)
Definition wrapped_reply (K : class) (reply : result value) : result value :=
  match reply with
  | Ok r => Ok (New K [Provider; r])
  | Raise e => Raise e
  end.

(** A backend that is out of reach: every call fails. *)
Definition broken_backend : backend_t :=
  fun _ _ => Raise (BackendError "connection refused").

Definition keypair_record (i : string) : value := Resource [("id", PyStr i)].

Definition group_record (i n d : string) : value :=
  Resource [("id", PyStr i); ("name", PyStr n); ("description", PyStr d)].

(** A backend with two key pairs, two security groups and an image for every
    identifier; it answers a volume lookup with an empty record, and the
    second listing of key pairs comes back with a record that has no [id]. *)
Definition account_backend : backend_t :=
  fun h c =>
    match c with
    | nova_keypairs_list =>
        match h with
        | [] => Ok (PyList [keypair_record "mykey"; keypair_record "deploy"])
        | _ => Ok (PyList [keypair_record "mykey"; Resource [("name", PyStr "deploy")]])
        end
    | nova_security_groups_list =>
        Ok (PyList [group_record "sg-1" "web" "http and https";
                    group_record "sg-2" "db" "postgres"])
    | nova_security_groups_get _ =>
        match h with
        | [] => Ok (group_record "sg-1" "web" "http and https")
        | _ => Ok (Resource [("id", PyStr "sg-3"); ("name", PyStr "cache")])
        end
    | nova_security_groups_create _ _ =>
        match h with
        | [] => Ok (group_record "sg-9" "renamed" "by the backend")
        | _ => Ok (Resource [("name", PyStr "no id")])
        end
    | nova_images_get i => Ok (Resource [("id", i); ("name", PyStr "ubuntu")])
    | cinder_volumes_get _ => Ok PyNone
    | _ => demo_backend h c
    end.


(** The listing [m] asks the backend once, with the call [c], and returns the
    records of the answer one for one, each converted by [wrap]: as many
    elements, in the same order. *)
Definition lists_one_for_one
    (backend : backend_t) (c : call) (wrap : value -> value) (m : M call value) : Prop :=
  forall h records,
    backend h c = Ok (PyList records) ->
    exists l,
      m h = (Ok (PyList l), [c])
      /\ List.length l = List.length records
      /\ forall i r, nth_error records i = Some r -> nth_error l i = Some (wrap r).

(** The listing [m] returns nothing of its own when the call [c] fails or is
    answered with [None]: it raises what the client raised, or [TypeError]. *)
Definition listing_fails_with_backend
    (backend : backend_t) (c : call) (m : M call value) : Prop :=
  (forall h e, backend h c = Raise e -> m h = (Raise e, [c]))
  /\ (forall h, backend h c = Ok PyNone -> m h = (Raise TypeError, [c])).

(** A [create_instance] outcome as a function of the backend's answer: it
    raised before any server was asked for, or its last call is the one
    [servers.create] call and the outcome is the answer to it, wrapped. *)
Definition ends_with_reply
    (backend : backend_t) (h : list call) (out : result value * list call) : Prop :=
  (servers_create_calls (snd out) = [] /\ exists e, fst out = Raise e)
  \/ (exists pre c,
         snd out = pre ++ [c]
         /\ is_servers_create c = true
         /\ servers_create_calls pre = []
         /\ fst out = wrapped_reply OpenStackInstance (backend (h ++ pre) c)).

(** A backend whose second flavor has no [name]. *)
Definition nameless_backend : backend_t :=
  fun h c =>
    match c with
    | nova_flavors_list =>
        Ok (PyList [flavor "1" "m1.tiny"; Resource [("id", PyStr "2")];
                    flavor "7" "m1.small"])
    | _ => demo_backend h c
    end.

(** A backend whose listings are answered with [None]. *)
Definition mute_backend : backend_t := fun _ _ => Ok PyNone.

(** Lines 292-294 of [create_instance] on their own: the flavor that is sent,
    and the calls made to find it. *)
Definition instance_size_step
    (backend : backend_t) (subclass : class -> class -> bool)
    (class_attr : class -> list value -> string -> option value)
    (object_eq : value -> value -> bool) (instance_type : value) : M call value :=
  if isinstance subclass instance_type InstanceType
  then attr class_attr instance_type "name"
  else itype <- find_by_name backend class_attr object_eq instance_type ;;
       attr class_attr itype "id".

(** Lines 298-305 of [create_instance] on their own: the value that is sent
    as [security_groups]. *)
Definition security_groups_step
    (subclass : class -> class -> bool)
    (class_attr : class -> list value -> string -> option value)
    (security_groups : value) : M call value :=
  if truthy security_groups then
    if is_list security_groups
       && isinstance subclass (item0 security_groups) SecurityGroup
    then sgs <- iter security_groups ;;
         names <- mapM (fun sg => attr class_attr sg "name") sgs ;;
         ret (PyList names)
    else ret security_groups
  else ret PyNone.

(* ================================================================== *)
(** ** Laws of the computations *)

Section EffectLaws.
Context {C A B : Type}.

Lemma bind_Ok (m : M C A) (f : A -> M C B) h a t :
  m h = (Ok a, t) ->
  bind m f h = (fst (f a (h ++ t)), t ++ snd (f a (h ++ t))).
Proof.
  intros Hm. unfold bind. rewrite Hm.
  destruct (f a (h ++ t)) as [r t']. reflexivity.
Qed.

Lemma bind_Raise (m : M C A) (f : A -> M C B) h e t :
  m h = (Raise e, t) -> bind m f h = (Raise e, t).
Proof. intros Hm. unfold bind. rewrite Hm. reflexivity. Qed.

Lemma bind_ret (a : A) (f : A -> M C B) h : bind (ret a) f h = f a h.
Proof.
  unfold bind, ret. rewrite app_nil_r.
  destruct (f a h) as [r t]. reflexivity.
Qed.

Lemma bind_lift_Ok (a : A) (f : A -> M C B) h : bind (lift (Ok a)) f h = f a h.
Proof. apply bind_ret. Qed.

Lemma bind_lift_Raise e (f : A -> M C B) h :
  bind (lift (Raise e)) f h = (Raise e, []).
Proof. reflexivity. Qed.
End EffectLaws.

(** Every case of a [bind]: the first part raised, or it returned and the
    second part ran after it. *)
Lemma bind_cases {C A B} (m : M C A) (f : A -> M C B) h :
  (exists e, m h = (Raise e, snd (m h)) /\ bind m f h = (Raise e, snd (m h)))
  \/ (exists a, m h = (Ok a, snd (m h))
        /\ bind m f h = (fst (f a (h ++ snd (m h))),
                         snd (m h) ++ snd (f a (h ++ snd (m h))))).
Proof.
  destruct (m h) as [[a | e] t] eqn:Hm; simpl.
  - right. exists a. split; [reflexivity |]. now apply bind_Ok.
  - left. exists e. split; [reflexivity |]. now apply bind_Raise.
Qed.

(* ================================================================== *)
(** ** Lookups by identifier *)

Section GetById.
Variable backend : backend_t.

(** [get_image], [get_volume], [get_snapshot] and [get_instance] turn the
    client's not-found exception into [None]. *)
Lemma get_image_not_found image_id h :
  backend h (nova_images_get image_id) = Raise NovaNotFound ->
  get_image backend image_id h = (Ok PyNone, [nova_images_get image_id]).
Proof.
  intros Hb. unfold get_image, try_except, bind, nova_cinder, invoke.
  rewrite Hb. reflexivity.
Qed.

Lemma get_volume_not_found volume_id h :
  backend h (cinder_volumes_get volume_id) = Raise CinderNotFound ->
  get_volume backend volume_id h = (Ok PyNone, [cinder_volumes_get volume_id]).
Proof.
  intros Hb. unfold get_volume, try_except, bind, nova_cinder, invoke.
  rewrite Hb. reflexivity.
Qed.

Lemma get_snapshot_not_found snapshot_id h :
  backend h (cinder_volume_snapshots_get snapshot_id) = Raise CinderNotFound ->
  get_snapshot backend snapshot_id h
  = (Ok PyNone, [cinder_volume_snapshots_get snapshot_id]).
Proof.
  intros Hb. unfold get_snapshot, try_except, bind, nova_cinder, invoke.
  rewrite Hb. reflexivity.
Qed.

Lemma get_instance_not_found instance_id h :
  backend h (nova_servers_get instance_id) = Raise NovaNotFound ->
  get_instance backend instance_id h = (Ok PyNone, [nova_servers_get instance_id]).
Proof.
  intros Hb. unfold get_instance, try_except, bind, nova_cinder, invoke.
  rewrite Hb. reflexivity.
Qed.

(** The security-group [get] has no handler: whatever the client raises
    reaches the caller. *)
Lemma security_group_get_propagates class_attr group_id h e :
  backend h (nova_security_groups_get group_id) = Raise e ->
  SecurityGroupService_get backend class_attr group_id h
  = (Raise e, [nova_security_groups_get group_id]).
Proof.
  intros Hb. unfold SecurityGroupService_get.
  apply bind_Raise. unfold nova_cinder, invoke. now rewrite Hb.
Qed.

(** It returns [None] only for an empty record. *)
Lemma security_group_get_falsy class_attr group_id h sg :
  backend h (nova_security_groups_get group_id) = Ok sg ->
  truthy sg = false ->
  SecurityGroupService_get backend class_attr group_id h
  = (Ok PyNone, [nova_security_groups_get group_id]).
Proof.
  intros Hb Hsg. unfold SecurityGroupService_get, bind, nova_cinder, invoke.
  rewrite Hb, Hsg. reflexivity.
Qed.
End GetById.

(** C1 (code at the failing input).  Against a backend that answers every
    [get] with the client's not-found exception, the image, volume, snapshot
    and instance lookups return [None], and the security-group lookup raises
    [NovaNotFound] to its caller. *)
Theorem security_group_get_raises_not_found :
  forall class_attr group_id h,
    empty_backend h (nova_security_groups_get group_id) = Raise NovaNotFound
    /\ SecurityGroupService_get empty_backend class_attr group_id h
       = (Raise NovaNotFound, [nova_security_groups_get group_id])
    /\ get_image empty_backend group_id h = (Ok PyNone, [nova_images_get group_id])
    /\ get_volume empty_backend group_id h = (Ok PyNone, [cinder_volumes_get group_id])
    /\ get_snapshot empty_backend group_id h
       = (Ok PyNone, [cinder_volume_snapshots_get group_id])
    /\ get_instance empty_backend group_id h = (Ok PyNone, [nova_servers_get group_id]).
Proof.
  intros class_attr group_id h.
  split; [reflexivity |].
  split; [now apply security_group_get_propagates |].
  split; [now apply get_image_not_found |].
  split; [now apply get_volume_not_found |].
  split; [now apply get_snapshot_not_found | now apply get_instance_not_found].
Qed.

(* ================================================================== *)
(** ** Searches by name *)

(** C5.  [find_image], [find_volume] and [find_snapshot] raise
    [NotImplementedError] on every input and in every state of the backend;
    they return no value and issue no client call. *)
Theorem find_is_not_implemented :
  forall (name : value) (h : list call),
    find_image name h
    = (Raise (NotImplementedError "find_image not implemented by this provider"), [])
    /\ find_volume name h
       = (Raise (NotImplementedError "find_volume not implemented by this provider"), [])
    /\ find_snapshot name h
       = (Raise (NotImplementedError "find_volume not implemented by this provider"), []).
Proof.
  intros name h. unfold find_image, find_volume, find_snapshot, raise.
  repeat split.
Qed.

(* ================================================================== *)
(** ** Regions *)

Lemma iter_trace v h : snd (iter v h) = [].
Proof. destruct v; reflexivity. Qed.

(** C8.  Whatever the backend answers, [list_regions] issues exactly one
    client call, the availability-zone listing with [detailed=False]; the
    detailed listing is never asked for. *)
Theorem list_regions_not_detailed :
  forall (backend : backend_t) (h : list call),
    snd (list_regions backend h) = [nova_availability_zones_list false]
    /\ ~ In (nova_availability_zones_list true) (snd (list_regions backend h)).
Proof.
  intros backend h.
  assert (Ht : snd (list_regions backend h) = [nova_availability_zones_list false]).
  { unfold list_regions.
    destruct (bind_cases (nova_cinder backend (nova_availability_zones_list false))
                (fun regions => rs <- iter regions ;;
                   ret (PyList (map (fun region => New OpenStackRegion [Provider; region]) rs)))
                h) as [(e & _ & ->) | (regions & _ & ->)]; simpl; [reflexivity |].
    set (h' := h ++ [nova_availability_zones_list false]).
    destruct (bind_cases (iter regions)
                (fun rs => ret (PyList (map (fun region => New OpenStackRegion [Provider; region]) rs)))
                h') as [(e & _ & ->) | (rs & _ & ->)];
      simpl; rewrite iter_trace; reflexivity. }
  split; [exact Ht |].
  rewrite Ht. simpl. intros [H | []]. discriminate H.
Qed.

(* ================================================================== *)
(** ** Creating security groups, volumes and snapshots *)

Section Create.
Variable backend : backend_t.
Variable subclass : class -> class -> bool.
Variable class_attr : class -> list value -> string -> option value.

Local Notation isinstance := (isinstance subclass).
Local Notation getattr := (getattr class_attr).
Local Notation attr := (attr class_attr).

(** An object-or-identifier parameter is resolved without any client call. *)
Lemma resolve_lift (b : bool) (v : value) (a : string) (x : value) :
  (if b then attr v a else ret x) = lift (if b then getattr v a else Ok x).
Proof. destruct b; reflexivity. Qed.

Lemma resolve_trace (b : bool) (v : value) (a : string) (x : value) h :
  snd ((if b then attr v a else ret x) h) = [].
Proof. destruct b; reflexivity. Qed.

Lemma security_group_create_falsy name description h sg :
  backend h (nova_security_groups_create name description) = Ok sg ->
  truthy sg = false ->
  SecurityGroupService_create backend class_attr name description h
  = (Ok PyNone, [nova_security_groups_create name description]).
Proof.
  intros Hb Hsg. unfold SecurityGroupService_create, bind, nova_cinder, invoke.
  rewrite Hb, Hsg. reflexivity.
Qed.

(** The outcome of [create_volume] once its zone and snapshot parameters are
    resolved: the record the backend answers with is wrapped as it is. *)
Lemma create_volume_run name size zone snapshot h zone_name snapshot_id :
  (if isinstance zone PlacementZone then getattr zone "name" else Ok zone)
  = Ok zone_name ->
  (if isinstance zone OpenStackSnapshot && truthy snapshot
   then getattr snapshot "snapshot_id" else Ok snapshot) = Ok snapshot_id ->
  create_volume backend subclass class_attr name size zone snapshot h
  = (match backend h (cinder_volumes_create size name zone_name snapshot_id) with
     | Ok os_vol => Ok (New OpenStackVolume [Provider; os_vol])
     | Raise e => Raise e
     end,
     [cinder_volumes_create size name zone_name snapshot_id]).
Proof.
  intros Hz Hs. unfold create_volume.
  rewrite !resolve_lift, Hz, bind_lift_Ok, Hs, bind_lift_Ok.
  unfold bind, nova_cinder, invoke.
  destruct (backend h _); reflexivity.
Qed.

Lemma create_snapshot_run name volume description h volume_id :
  (if isinstance volume OpenStackVolume then getattr volume "volume_id" else Ok volume)
  = Ok volume_id ->
  create_snapshot backend subclass class_attr name volume description h
  = (match backend h (cinder_volume_snapshots_create volume_id name description) with
     | Ok os_snap => Ok (New OpenStackSnapshot [Provider; os_snap])
     | Raise e => Raise e
     end,
     [cinder_volume_snapshots_create volume_id name description]).
Proof.
  intros Hv. unfold create_snapshot.
  rewrite resolve_lift, Hv, bind_lift_Ok.
  unfold bind, nova_cinder, invoke.
  destruct (backend h _); reflexivity.
Qed.

(** Unless the zone argument is an [OpenStackSnapshot], the snapshot
    argument reaches the backend untouched. *)
Lemma create_volume_snapshot_untouched name size zone snapshot h c :
  isinstance zone OpenStackSnapshot = false ->
  In c (snd (create_volume backend subclass class_attr name size zone snapshot h)) ->
  exists zone_name, c = cinder_volumes_create size name zone_name snapshot.
Proof.
  intros Hz.
  destruct (if isinstance zone PlacementZone then getattr zone "name" else Ok zone)
    as [zone_name | e] eqn:Hn.
  - rewrite (create_volume_run name size zone snapshot h zone_name snapshot Hn)
      by now rewrite Hz.
    simpl. intros [<- | []]. now exists zone_name.
  - unfold create_volume. rewrite resolve_lift, Hn, bind_lift_Raise.
    intros [].
Qed.

(** C4, as amended.  The security-group [create] returns [None] when the
    backend's create call comes back with an empty record.  [create_volume]
    and [create_snapshot] make no such test: once their parameters are
    resolved, any record the backend answers with, empty or not, is returned
    wrapped in an [OpenStackVolume] or an [OpenStackSnapshot]. *)
Theorem create_on_backend_record :
  (forall name description h sg,
      backend h (nova_security_groups_create name description) = Ok sg ->
      truthy sg = false ->
      SecurityGroupService_create backend class_attr name description h
      = (Ok PyNone, [nova_security_groups_create name description]))
  /\ (forall name size zone snapshot h zone_name snapshot_id os_vol,
         (if isinstance zone PlacementZone then getattr zone "name" else Ok zone)
         = Ok zone_name ->
         (if isinstance zone OpenStackSnapshot && truthy snapshot
          then getattr snapshot "snapshot_id" else Ok snapshot) = Ok snapshot_id ->
         backend h (cinder_volumes_create size name zone_name snapshot_id) = Ok os_vol ->
         create_volume backend subclass class_attr name size zone snapshot h
         = (Ok (New OpenStackVolume [Provider; os_vol]),
            [cinder_volumes_create size name zone_name snapshot_id]))
  /\ (forall name volume description h volume_id os_snap,
         (if isinstance volume OpenStackVolume
          then getattr volume "volume_id" else Ok volume) = Ok volume_id ->
         backend h (cinder_volume_snapshots_create volume_id name description)
         = Ok os_snap ->
         create_snapshot backend subclass class_attr name volume description h
         = (Ok (New OpenStackSnapshot [Provider; os_snap]),
            [cinder_volume_snapshots_create volume_id name description])).
Proof.
  split; [exact security_group_create_falsy |]. split.
  - intros name size zone snapshot h zone_name snapshot_id os_vol Hz Hs Hb.
    rewrite (create_volume_run _ _ _ _ _ _ _ Hz Hs), Hb. reflexivity.
  - intros name volume description h volume_id os_snap Hv Hb.
    rewrite (create_snapshot_run _ _ _ _ _ Hv), Hb. reflexivity.
Qed.
End Create.

(** C4, witness: the three parts on a backend whose create calls come back
    empty. *)
Lemma create_on_backend_record_witness :
  SecurityGroupService_create refusing_backend std_class_attr
    (PyStr "web") (PyStr "http and https") []
  = (Ok PyNone, [nova_security_groups_create (PyStr "web") (PyStr "http and https")])
  /\ create_volume refusing_backend std_subclass std_class_attr
       (PyStr "data") (PyInt 10) zone1 PyNone []
     = (Ok (New OpenStackVolume [Provider; PyNone]),
        [cinder_volumes_create (PyInt 10) (PyStr "data") (PyStr "nova") PyNone])
  /\ create_snapshot refusing_backend std_subclass std_class_attr
       (PyStr "nightly") volume1 PyNone []
     = (Ok (New OpenStackSnapshot [Provider; PyNone]),
        [cinder_volume_snapshots_create (PyStr "vol-1") (PyStr "nightly") PyNone]).
Proof.
  destruct (create_on_backend_record refusing_backend std_subclass std_class_attr)
    as (Hsg & Hvol & Hsnap).
  split; [| split].
  - apply Hsg with (sg := PyNone); reflexivity.
  - apply Hvol; reflexivity.
  - apply Hsnap; reflexivity.
Defined.

(** C4, counterexample.  The backend answers the volume and snapshot create
    calls with [None], an empty record; [create_volume] and [create_snapshot]
    return an object wrapped around it, not [None]. *)
Lemma create_volume_wraps_empty_record :
  refusing_backend [] (cinder_volumes_create (PyInt 10) (PyStr "data") (PyStr "nova") PyNone)
  = Ok PyNone
  /\ truthy PyNone = false
  /\ fst (create_volume refusing_backend std_subclass std_class_attr
            (PyStr "data") (PyInt 10) (PyStr "nova") PyNone [])
     = Ok (New OpenStackVolume [Provider; PyNone])
  /\ fst (create_volume refusing_backend std_subclass std_class_attr
            (PyStr "data") (PyInt 10) (PyStr "nova") PyNone []) <> Ok PyNone
  /\ refusing_backend []
       (cinder_volume_snapshots_create (PyStr "vol-1") (PyStr "nightly") PyNone)
     = Ok PyNone
  /\ fst (create_snapshot refusing_backend std_subclass std_class_attr
            (PyStr "nightly") (PyStr "vol-1") PyNone []) <> Ok PyNone.
Proof.
  repeat split; try reflexivity; simpl; discriminate.
Qed.

(** C2 (code at the failing input).  [snapshot1] is a domain snapshot whose
    identifier is ["snap-1"]; with the zone given by name or as a zone object,
    the volume-creation call carries the snapshot object itself as
    [snapshot_id], not the string ["snap-1"]. *)
Theorem create_volume_sends_snapshot_object :
  forall h,
    getattr std_class_attr snapshot1 "snapshot_id" = Ok (PyStr "snap-1")
    /\ snd (create_volume demo_backend std_subclass std_class_attr
              (PyStr "data") (PyInt 10) (PyStr "nova") snapshot1 h)
       = [cinder_volumes_create (PyInt 10) (PyStr "data") (PyStr "nova") snapshot1]
    /\ snd (create_volume demo_backend std_subclass std_class_attr
              (PyStr "data") (PyInt 10) zone1 snapshot1 h)
       = [cinder_volumes_create (PyInt 10) (PyStr "data") (PyStr "nova") snapshot1]
    /\ snapshot1 <> PyStr "snap-1".
Proof.
  intros h. split; [reflexivity |].
  split; [| split; [| discriminate]].
  - rewrite (create_volume_run demo_backend std_subclass std_class_attr
               _ _ _ _ h (PyStr "nova") snapshot1); reflexivity.
  - rewrite (create_volume_run demo_backend std_subclass std_class_attr
               _ _ _ _ h (PyStr "nova") snapshot1); reflexivity.
Qed.

(* ================================================================== *)
(** ** Instance types *)

Lemma py_eq_PyStr object_eq (n : value) (s : string) :
  py_eq object_eq n (PyStr s) = true <-> n = PyStr s.
Proof.
  destruct n; simpl; split; intros H; try discriminate.
  - apply String.eqb_eq in H. now subst.
  - injection H as ->. apply String.eqb_refl.
Qed.

Lemma getattr_Raise class_attr (v : value) (a : string) (e : exn) :
  getattr class_attr v a = Raise e -> e = AttributeError a.
Proof.
  destruct v; simpl; try (intros [= <-]; reflexivity).
  - destruct (lookup a fields); [discriminate | now intros [= <-]].
  - destruct (class_attr c args a); [discriminate | now intros [= <-]].
Qed.

Section InstanceTypes.
Variable backend : backend_t.
Variable class_attr : class -> list value -> string -> option value.
Variable object_eq : value -> value -> bool.

Local Notation getattr := (getattr class_attr).
Local Notation named_otherwise := (named_otherwise class_attr).

(** The listing is one client call. *)
Lemma InstanceTypesService_list_trace h :
  snd (InstanceTypesService_list backend h) = [nova_flavors_list].
Proof.
  unfold InstanceTypesService_list, bind, nova_cinder, invoke.
  destruct (backend h nova_flavors_list) as [flavors | e]; [| reflexivity].
  destruct flavors; reflexivity.
Qed.

(** The generator runs off the end when nothing carries the name. *)
Lemma next_named_absent (s : string) (l : list value) h :
  Forall (named_otherwise s) l ->
  next_named class_attr object_eq (PyStr s) l h = (Ok PyNone, []).
Proof.
  intros Hl. revert h. induction Hl as [| x l (n & Hn & Hne) _ IH]; intros h.
  - reflexivity.
  - simpl. unfold attr. rewrite Hn, bind_lift_Ok.
    destruct (py_eq object_eq n (PyStr s)) eqn:E.
    + apply py_eq_PyStr in E. contradiction.
    + apply IH.
Qed.

(** It stops at the first element that carries the name. *)
Lemma next_named_first (s : string) (pre post : list value) (x : value) h :
  Forall (named_otherwise s) pre ->
  getattr x "name" = Ok (PyStr s) ->
  next_named class_attr object_eq (PyStr s) (pre ++ x :: post) h = (Ok x, []).
Proof.
  intros Hpre Hx. revert h.
  induction Hpre as [| y pre (n & Hn & Hne) _ IH]; intros h; simpl; unfold attr.
  - rewrite Hx, bind_lift_Ok. simpl. now rewrite String.eqb_refl.
  - rewrite Hn, bind_lift_Ok.
    destruct (py_eq object_eq n (PyStr s)) eqn:E.
    + apply py_eq_PyStr in E. contradiction.
    + apply IH.
Qed.

(** [find_by_name] is the listing followed by the generator. *)
Lemma find_by_name_run name h itypes t :
  InstanceTypesService_list backend h = (Ok (PyList itypes), t) ->
  find_by_name backend class_attr object_eq name h
  = (fst (next_named class_attr object_eq name itypes (h ++ t)),
     t ++ snd (next_named class_attr object_eq name itypes (h ++ t))).
Proof.
  intros Hl. unfold find_by_name.
  rewrite (bind_Ok _ _ _ _ _ Hl). simpl iter. now rewrite bind_ret.
Qed.

Lemma find_by_name_absent (s : string) h itypes t :
  InstanceTypesService_list backend h = (Ok (PyList itypes), t) ->
  Forall (named_otherwise s) itypes ->
  find_by_name backend class_attr object_eq (PyStr s) h = (Ok PyNone, t).
Proof.
  intros Hl Hall. rewrite (find_by_name_run _ _ _ _ Hl).
  rewrite next_named_absent by assumption. simpl. now rewrite app_nil_r.
Qed.

Lemma find_by_name_first (s : string) h pre x post t :
  InstanceTypesService_list backend h = (Ok (PyList (pre ++ x :: post)), t) ->
  Forall (named_otherwise s) pre ->
  getattr x "name" = Ok (PyStr s) ->
  find_by_name backend class_attr object_eq (PyStr s) h = (Ok x, t).
Proof.
  intros Hl Hpre Hx. rewrite (find_by_name_run _ _ _ _ Hl).
  rewrite next_named_first by assumption. simpl. now rewrite app_nil_r.
Qed.

(** C6.  Let [list()] return [itypes].  [find_by_name s] returns [None]
    when no element of [itypes] is called [s]; when [x] is the first element
    of [itypes] called [s], it returns [x], whatever follows [x] in the list
    (duplicates of the name included).  No call beyond the listing's is made. *)
Theorem find_by_name_first_match (s : string) h itypes t :
  InstanceTypesService_list backend h = (Ok (PyList itypes), t) ->
  (Forall (named_otherwise s) itypes -> find_by_name backend class_attr object_eq (PyStr s) h = (Ok PyNone, t))
  /\ (forall pre x post,
         itypes = pre ++ x :: post ->
         Forall (named_otherwise s) pre ->
         getattr x "name" = Ok (PyStr s) ->
         find_by_name backend class_attr object_eq (PyStr s) h = (Ok x, t)).
Proof.
  intros Hl. split.
  - intros Hall. now apply find_by_name_absent with (itypes := itypes).
  - intros pre x post E Hpre Hx. subst itypes.
    now apply find_by_name_first with (pre := pre) (post := post).
Qed.
(** The calls of a [bind]: those of its first part, then those of the second
    when the first returned. *)
Lemma bind_trace {A B} (m : M call A) (f : A -> M call B) h0 :
  snd (bind m f h0)
  = snd (m h0) ++ match fst (m h0) with
                  | Ok a => snd (f a (h0 ++ snd (m h0)))
                  | Raise _ => []
                  end.
Proof.
  unfold bind. destruct (m h0) as [[a | e] t]; simpl.
  - now destruct (f a (h0 ++ t)).
  - now rewrite app_nil_r.
Qed.

(** The generator asks the backend nothing. *)
Lemma next_named_trace (name : value) (l : list value) h :
  snd (next_named class_attr object_eq name l h) = [].
Proof.
  revert h. induction l as [| itype rest IH]; intros h; simpl; [reflexivity |].
  unfold attr at 1. destruct (getattr itype "name") as [n | e].
  - rewrite bind_lift_Ok. destruct (py_eq object_eq n name); [reflexivity | apply IH].
  - reflexivity.
Qed.

(** The calls of [find_by_name]. *)
Lemma find_by_name_trace (name : value) h :
  snd (find_by_name backend class_attr object_eq name h) = [nova_flavors_list].
Proof.
  unfold find_by_name.
  rewrite bind_trace, InstanceTypesService_list_trace.
  destruct (fst (InstanceTypesService_list backend h)) as [l | e]; [| reflexivity].
  rewrite bind_trace, iter_trace.
  destruct (fst (iter l (h ++ [nova_flavors_list]))) as [itypes | e]; [| reflexivity].
  now rewrite next_named_trace.
Qed.
End InstanceTypes.

Lemma demo_named_otherwise (i n s : string) :
  n <> s -> named_otherwise std_class_attr s (New OpenStackInstanceType [flavor i n]).
Proof.
  intros Hne. exists (PyStr n). split; [reflexivity |].
  intros [= E]. contradiction.
Qed.

(** C6, witness: of the two types called [m1.small] the first one is found,
    and no type is called [nonexistent]. *)
Lemma find_by_name_first_match_witness :
  find_by_name demo_backend std_class_attr std_object_eq (PyStr "m1.small") []
  = (Ok (New OpenStackInstanceType [flavor "2" "m1.small"]), [nova_flavors_list])
  /\ find_by_name demo_backend std_class_attr std_object_eq (PyStr "nonexistent") []
     = (Ok PyNone, [nova_flavors_list]).
Proof.
  split.
  - apply (proj2 (find_by_name_first_match demo_backend std_class_attr std_object_eq
                    "m1.small" [] demo_itypes [nova_flavors_list] eq_refl))
      with (pre := [New OpenStackInstanceType [flavor "1" "m1.tiny"]])
           (post := [New OpenStackInstanceType [flavor "7" "m1.small"]]).
    + reflexivity.
    + constructor; [| constructor]. apply demo_named_otherwise. discriminate.
    + reflexivity.
  - apply (proj1 (find_by_name_first_match demo_backend std_class_attr std_object_eq
                    "nonexistent" [] demo_itypes [nova_flavors_list] eq_refl)).
    repeat constructor; apply demo_named_otherwise; discriminate.
Defined.

(* ================================================================== *)
(** ** Which computations ask for a server *)

Lemma servers_create_calls_app (t u : list call) :
  servers_create_calls (t ++ u) = servers_create_calls t ++ servers_create_calls u.
Proof. apply filter_app. Qed.

Lemma filter_all (t : list call) : filter (fun _ => true) t = t.
Proof. induction t as [| c t IH]; simpl; [reflexivity | now rewrite IH]. Qed.

(** A computation that avoids every call makes none. *)
Lemma avoids_all_silent {A} (m : M call A) h :
  avoids (fun _ => true) m -> snd (m h) = [].
Proof. intros Hm. rewrite <- (filter_all (snd (m h))). apply Hm. Qed.

Section Quiet.
Context {A B : Type}.
Variable p : call -> bool.

Lemma avoids_ret (a : A) : avoids p (ret a).
Proof. intros h. reflexivity. Qed.

Lemma avoids_lift (r : result A) : avoids p (lift r).
Proof. intros h. reflexivity. Qed.

Lemma avoids_bind (m : M call A) (f : A -> M call B) :
  avoids p m -> (forall a, avoids p (f a)) -> avoids p (bind m f).
Proof.
  intros Hm Hf h.
  destruct (bind_cases m f h) as [(e & _ & ->) | (a & _ & ->)]; simpl.
  - apply Hm.
  - rewrite filter_app, Hm, Hf. reflexivity.
Qed.

Lemma avoids_if (b : bool) (m n : M call A) :
  avoids p m -> avoids p n -> avoids p (if b then m else n).
Proof. now destruct b. Qed.

Lemma avoids_invoke (backend : backend_t) (c : call) :
  p c = false -> avoids p (nova_cinder backend c).
Proof. intros Hc h. simpl. now rewrite Hc. Qed.

(** A [bind] creates a server the way its second part does, when the first
    part asks for none. *)
Lemma creates_with_bind (P : call -> Prop) (m : M call A) (f : A -> M call B) h :
  servers_create_calls (snd (m h)) = [] ->
  (forall a, fst (m h) = Ok a -> creates_with P (f a (h ++ snd (m h)))) ->
  creates_with P (bind m f h).
Proof.
  intros Hm Hf.
  destruct (bind_cases m f h) as [(e & _ & ->) | (a & Ha & ->)].
  - left. simpl. split; [exact Hm | now exists e].
  - assert (Hfst : fst (m h) = Ok a) by now rewrite Ha.
    destruct (Hf a Hfst) as [(Hq & e & He) | (c & Hc & HP)].
    + left. simpl. rewrite servers_create_calls_app, Hm, Hq.
      split; [reflexivity | now exists e].
    + right. exists c. simpl. rewrite servers_create_calls_app, Hm, Hc.
      split; [reflexivity | exact HP].
Qed.
End Quiet.

Section Compute.
Variable backend : backend_t.
Variable subclass : class -> class -> bool.
Variable class_attr : class -> list value -> string -> option value.
Variable object_eq : value -> value -> bool.

Local Notation isinstance := (isinstance subclass).
Local Notation getattr := (getattr class_attr).
Local Notation attr := (attr class_attr).

Lemma avoids_attr p v a : avoids p (attr v a).
Proof. apply avoids_lift. Qed.

Lemma avoids_resolve p (b : bool) v a x : avoids p (if b then attr v a else ret x).
Proof. apply avoids_if; [apply avoids_attr | apply avoids_ret]. Qed.

Lemma avoids_iter p v : avoids p (iter v).
Proof. intros h. now rewrite iter_trace. Qed.

Lemma avoids_mapM_attr p a l : avoids p (mapM (fun v => attr v a) l).
Proof.
  induction l as [| v l IH]; simpl.
  - apply avoids_ret.
  - apply avoids_bind; [apply avoids_attr | intros y].
    apply avoids_bind; [exact IH | intros ys; apply avoids_ret].
Qed.

Lemma avoids_next_named p name l : avoids p (next_named class_attr object_eq name l).
Proof.
  induction l as [| itype rest IH]; simpl.
  - apply avoids_ret.
  - apply avoids_bind; [apply avoids_attr |].
    intros n. apply avoids_if; [apply avoids_ret | exact IH].
Qed.

Lemma quiet_find_by_name name : quiet (find_by_name backend class_attr object_eq name).
Proof.
  unfold find_by_name. apply avoids_bind.
  - intros h. now rewrite InstanceTypesService_list_trace.
  - intros l. apply avoids_bind; [apply avoids_iter | intros; apply avoids_next_named].
Qed.

(** The instance-size step of [create_instance]. *)
Lemma quiet_instance_size instance_type :
  quiet (if isinstance instance_type InstanceType
         then attr instance_type "name"
         else itype <- find_by_name backend class_attr object_eq instance_type ;; attr itype "id").
Proof.
  apply avoids_if; [apply avoids_attr |].
  apply avoids_bind; [apply quiet_find_by_name | intros; apply avoids_attr].
Qed.

(** The security-group step of [create_instance] makes no client call. *)
Lemma avoids_security_groups_step p security_groups :
  avoids p
    (if truthy security_groups then
       if is_list security_groups && isinstance (item0 security_groups) SecurityGroup
       then l <- iter security_groups ;;
            ns <- mapM (fun sg => attr sg "name") l ;;
            ret (PyList ns)
       else ret security_groups
     else ret PyNone).
Proof.
  repeat apply avoids_if; try apply avoids_ret.
  apply avoids_bind; [apply avoids_iter | intros l].
  apply avoids_bind; [apply avoids_mapM_attr | intros; apply avoids_ret].
Qed.

(** The last step of [create_instance]: one [servers.create] call. *)
Lemma creates_with_servers_create (P : call -> Prop) (c : call) h :
  is_servers_create c = true -> P c ->
  creates_with P
    ((os_instance <- nova_cinder backend c ;;
      ret (New OpenStackInstance [Provider; os_instance])) h).
Proof.
  intros Hc HP. right. exists c. split; [| exact HP].
  unfold bind, nova_cinder, invoke, ret.
  destruct (backend h c); simpl; now rewrite Hc.
Qed.

(** [[sg.name for sg in security_groups]] on domain security groups. *)
Lemma mapM_security_group_names sgs names h :
  Forall2 (security_group_named subclass class_attr) sgs names ->
  mapM (fun sg => attr sg "name") sgs h = (Ok (map PyStr names), []).
Proof.
  intros Hall. revert h.
  induction Hall as [| sg n sgs names [_ Hn] _ IH]; intros h; simpl.
  - reflexivity.
  - unfold attr at 1. rewrite Hn, bind_lift_Ok.
    rewrite (bind_Ok _ _ _ _ _ (IH h)). reflexivity.
Qed.

(** The security-group step of [create_instance] on a non-empty list of
    domain security groups. *)
Lemma security_groups_step_names sgs names h :
  sgs <> [] ->
  Forall2 (security_group_named subclass class_attr) sgs names ->
  (if truthy (PyList sgs) then
     if is_list (PyList sgs) && isinstance (item0 (PyList sgs)) SecurityGroup
     then l <- iter (PyList sgs) ;;
          ns <- mapM (fun sg => attr sg "name") l ;;
          ret (PyList ns)
     else ret (PyList sgs)
   else ret PyNone) h
  = (Ok (PyList (map PyStr names)), []).
Proof.
  intros Hne Hall.
  destruct Hall as [| sg n sgs names [Hsg Hn] Hall]; [contradiction |].
  cbn [truthy is_list item0 andb]. rewrite Hsg.
  cbn [iter]. rewrite bind_ret.
  assert (Hm : Forall2 (security_group_named subclass class_attr)
                 (sg :: sgs) (n :: names)) by (constructor; [split |]; assumption).
  rewrite (bind_Ok _ _ _ _ _ (mapM_security_group_names _ _ h Hm)).
  reflexivity.
Qed.

Section CreateInstance.
Variables name image instance_type zone keypair user_data : value.
Variables block_device_mapping network_interfaces : value.
Variable kwargs : list (string * value).

(** Whatever the other arguments are, the [servers.create] call carries
    the security-group value [sgl] when the security-group step yields
    [sgl] without a client call. *)
Lemma create_instance_security_groups_sent security_groups sgl :
  (forall h,
      (if truthy security_groups then
         if is_list security_groups
            && isinstance (item0 security_groups) SecurityGroup
         then l <- iter security_groups ;;
              ns <- mapM (fun sg => attr sg "name") l ;;
              ret (PyList ns)
         else ret security_groups
       else ret PyNone) h = (Ok sgl, [])) ->
  forall h,
    creates_with (fun c => security_groups_of c = Some sgl)
      (create_instance backend subclass class_attr object_eq
         name image instance_type zone keypair security_groups user_data
         block_device_mapping network_interfaces kwargs h).
Proof.
  intros Hstep h. unfold create_instance.
  apply creates_with_bind; [apply (avoids_resolve is_servers_create) | intros image_id _].
  apply creates_with_bind; [apply quiet_instance_size | intros instance_size _].
  apply creates_with_bind; [apply (avoids_resolve is_servers_create) | intros zone_name _].
  apply creates_with_bind; [apply (avoids_resolve is_servers_create) | intros keypair_name _].
  apply creates_with_bind; [now rewrite Hstep |].
  rewrite Hstep. intros a [= <-].
  now apply creates_with_servers_create.
Qed.

(** [create_instance] once each of its arguments is resolved: one
    [servers.create] call with the resolved values, after the calls of the
    instance-size step, and the answer to it as the outcome. *)
Lemma create_instance_run security_groups h
    image_id instance_size listing zone_name keypair_name sgl :
  (if isinstance image MachineImage then getattr image "image_id" else Ok image)
  = Ok image_id ->
  instance_size_step backend subclass class_attr object_eq instance_type h
  = (Ok instance_size, listing) ->
  (if isinstance zone PlacementZone then getattr zone "name" else Ok zone)
  = Ok zone_name ->
  (if isinstance keypair KeyPair then getattr keypair "name" else Ok keypair)
  = Ok keypair_name ->
  fst (security_groups_step subclass class_attr security_groups (h ++ listing)) = Ok sgl ->
  create_instance backend subclass class_attr object_eq
    name image instance_type zone keypair security_groups user_data
    block_device_mapping network_interfaces kwargs h
  = (wrapped_reply OpenStackInstance
       (backend (h ++ listing)
          (nova_servers_create name image_id instance_size 1 1
             zone_name keypair_name sgl user_data)),
     listing ++ [nova_servers_create name image_id instance_size 1 1
                   zone_name keypair_name sgl user_data]).
Proof.
  intros Himg Hsize Hzone Hkp Hsg.
  assert (Hsg' : security_groups_step subclass class_attr security_groups (h ++ listing)
                 = (Ok sgl, [])).
  { rewrite (surjective_pairing (security_groups_step _ _ _ _)), Hsg.
    f_equal. apply avoids_all_silent.
    apply (avoids_security_groups_step (fun _ => true)). }
  unfold create_instance.
  rewrite !(resolve_lift class_attr), Himg, Hzone, Hkp, bind_lift_Ok.
  change (if isinstance instance_type InstanceType
          then attr instance_type "name"
          else itype <- find_by_name backend class_attr object_eq instance_type ;;
               attr itype "id")
    with (instance_size_step backend subclass class_attr object_eq instance_type).
  rewrite (bind_Ok _ _ _ _ _ Hsize).
  rewrite !bind_lift_Ok.
  change (if truthy security_groups then
            if is_list security_groups && isinstance (item0 security_groups) SecurityGroup
            then sgs <- iter security_groups ;;
                 names <- mapM (fun sg => attr sg "name") sgs ;;
                 ret (PyList names)
            else ret security_groups
          else ret PyNone)
    with (security_groups_step subclass class_attr security_groups).
  rewrite (bind_Ok _ _ _ _ _ Hsg'), app_nil_r.
  unfold bind, nova_cinder, invoke, ret.
  destruct (backend (h ++ listing) _); reflexivity.
Qed.

(** C7.  Let [sgs] be a non-empty list of domain security groups called
    [names].  When the image, instance type, zone and keypair resolve,
    [create_instance] issues its [servers.create] call with [security_groups]
    the list of the plain strings [names], after the calls of the
    instance-size step and nothing else, and returns the answer to it; when
    [security_groups] is [None] (omitted) or any other falsy value, that call
    carries [None].  When another argument does not resolve,
    [create_instance] raises and no [servers.create] call goes out, with
    these or any other groups. *)
Theorem create_instance_security_group_names :
  (forall sgs names h image_id instance_size listing zone_name keypair_name,
      sgs <> [] ->
      Forall2 (security_group_named subclass class_attr) sgs names ->
      (if isinstance image MachineImage then getattr image "image_id" else Ok image)
      = Ok image_id ->
      instance_size_step backend subclass class_attr object_eq instance_type h
      = (Ok instance_size, listing) ->
      (if isinstance zone PlacementZone then getattr zone "name" else Ok zone)
      = Ok zone_name ->
      (if isinstance keypair KeyPair then getattr keypair "name" else Ok keypair)
      = Ok keypair_name ->
      create_instance backend subclass class_attr object_eq
        name image instance_type zone keypair (PyList sgs) user_data
        block_device_mapping network_interfaces kwargs h
      = (wrapped_reply OpenStackInstance
           (backend (h ++ listing)
              (nova_servers_create name image_id instance_size 1 1
                 zone_name keypair_name (PyList (map PyStr names)) user_data)),
         listing ++ [nova_servers_create name image_id instance_size 1 1
                       zone_name keypair_name (PyList (map PyStr names)) user_data]))
  /\ (forall security_groups h image_id instance_size listing zone_name keypair_name,
         truthy security_groups = false ->
         (if isinstance image MachineImage then getattr image "image_id" else Ok image)
         = Ok image_id ->
         instance_size_step backend subclass class_attr object_eq instance_type h
         = (Ok instance_size, listing) ->
         (if isinstance zone PlacementZone then getattr zone "name" else Ok zone)
         = Ok zone_name ->
         (if isinstance keypair KeyPair then getattr keypair "name" else Ok keypair)
         = Ok keypair_name ->
         create_instance backend subclass class_attr object_eq
           name image instance_type zone keypair security_groups user_data
           block_device_mapping network_interfaces kwargs h
         = (wrapped_reply OpenStackInstance
              (backend (h ++ listing)
                 (nova_servers_create name image_id instance_size 1 1
                    zone_name keypair_name PyNone user_data)),
            listing ++ [nova_servers_create name image_id instance_size 1 1
                          zone_name keypair_name PyNone user_data]))
  /\ (forall sgs names h,
         sgs <> [] ->
         Forall2 (security_group_named subclass class_attr) sgs names ->
         creates_with
           (fun c => security_groups_of c = Some (PyList (map PyStr names)))
           (create_instance backend subclass class_attr object_eq
              name image instance_type zone keypair (PyList sgs) user_data
              block_device_mapping network_interfaces kwargs h))
  /\ (forall security_groups h,
         truthy security_groups = false ->
         creates_with (fun c => security_groups_of c = Some PyNone)
           (create_instance backend subclass class_attr object_eq
              name image instance_type zone keypair security_groups user_data
              block_device_mapping network_interfaces kwargs h)).
Proof.
  split; [| split; [| split]].
  - intros sgs names h image_id instance_size listing zone_name keypair_name
      Hne Hall Himg Hsize Hzone Hkp.
    apply create_instance_run; try assumption.
    unfold security_groups_step.
    now rewrite (security_groups_step_names sgs names _ Hne Hall).
  - intros security_groups h image_id instance_size listing zone_name keypair_name
      Hfalsy Himg Hsize Hzone Hkp.
    apply create_instance_run; try assumption.
    unfold security_groups_step. now rewrite Hfalsy.
  - intros sgs names h Hne Hall.
    apply create_instance_security_groups_sent.
    intros h'. now apply security_groups_step_names.
  - intros security_groups h Hfalsy.
    apply create_instance_security_groups_sent.
    intros h'. now rewrite Hfalsy.
Qed.
End CreateInstance.
End Compute.

(** A run of [create_instance] on domain objects throughout: the backend is
    asked once, with identifiers and names only. *)
Example create_instance_demo_run :
  create_instance demo_backend std_subclass std_class_attr std_object_eq
    (PyStr "vm") image1 small zone1 keypair1 (PyList [web; db]) PyNone PyNone PyNone [] []
  = (Ok (New OpenStackInstance
           [Provider;
            Resource [("id", PyStr "srv-1"); ("name", PyStr "vm");
                      ("image", PyStr "img-1"); ("flavor", PyStr "m1.small")]]),
     [nova_servers_create (PyStr "vm") (PyStr "img-1") (PyStr "m1.small") 1 1
        (PyStr "nova") (PyStr "mykey") (PyList [PyStr "web"; PyStr "db"]) PyNone]).
Proof. reflexivity. Qed.

(** C7, witness: two domain security groups, then none; every argument is a
    domain object and resolves. *)
Lemma create_instance_security_group_names_witness :
  create_instance demo_backend std_subclass std_class_attr std_object_eq
    (PyStr "vm") image1 small zone1 keypair1 (PyList [web; db])
    PyNone PyNone PyNone [] []
  = (Ok (New OpenStackInstance
           [Provider;
            Resource [("id", PyStr "srv-1"); ("name", PyStr "vm");
                      ("image", PyStr "img-1"); ("flavor", PyStr "m1.small")]]),
     [nova_servers_create (PyStr "vm") (PyStr "img-1") (PyStr "m1.small") 1 1
        (PyStr "nova") (PyStr "mykey") (PyList [PyStr "web"; PyStr "db"]) PyNone])
  /\ create_instance demo_backend std_subclass std_class_attr std_object_eq
       (PyStr "vm") image1 small zone1 keypair1 PyNone PyNone PyNone PyNone [] []
     = (Ok (New OpenStackInstance
              [Provider;
               Resource [("id", PyStr "srv-1"); ("name", PyStr "vm");
                         ("image", PyStr "img-1"); ("flavor", PyStr "m1.small")]]),
        [nova_servers_create (PyStr "vm") (PyStr "img-1") (PyStr "m1.small") 1 1
           (PyStr "nova") (PyStr "mykey") PyNone PyNone]).
Proof.
  destruct (create_instance_security_group_names demo_backend std_subclass
              std_class_attr std_object_eq (PyStr "vm") image1 small zone1 keypair1
              PyNone PyNone PyNone [])
    as (Hnames & Hnone & _ & _).
  assert (Hne : [web; db] <> []) by discriminate.
  assert (Hall : Forall2 (security_group_named std_subclass std_class_attr)
                   [web; db] ["web"; "db"]) by (repeat constructor).
  split.
  - exact (Hnames [web; db] ["web"; "db"] [] (PyStr "img-1") (PyStr "m1.small") []
             (PyStr "nova") (PyStr "mykey") Hne Hall eq_refl eq_refl eq_refl eq_refl).
  - exact (Hnone PyNone [] (PyStr "img-1") (PyStr "m1.small") []
             (PyStr "nova") (PyStr "mykey") eq_refl eq_refl eq_refl eq_refl eq_refl).
Defined.

(* ================================================================== *)
(** ** An instance type given by a name that is not listed *)

Section UnknownInstanceType.
Variable backend : backend_t.
Variable subclass : class -> class -> bool.
Variable class_attr : class -> list value -> string -> option value.
Variable object_eq : value -> value -> bool.
Variables name image zone keypair security_groups user_data : value.
Variables block_device_mapping network_interfaces : value.
Variable kwargs : list (string * value).

(** [create_instance] up to the name lookup, once the image is resolved. *)
Lemma create_instance_absent_type (s : string) h t image_id :
  find_by_name backend class_attr object_eq (PyStr s) h = (Ok PyNone, t) ->
  (if isinstance subclass image MachineImage then getattr class_attr image "image_id" else Ok image)
  = Ok image_id ->
  create_instance backend subclass class_attr object_eq
    name image (PyStr s) zone keypair security_groups user_data
    block_device_mapping network_interfaces kwargs h
  = (Raise (AttributeError "id"), t).
Proof.
  intros Hf Himg. unfold create_instance.
  rewrite resolve_lift, Himg, bind_lift_Ok.
  apply bind_Raise. cbn [isinstance].
  rewrite (bind_Ok _ _ _ _ _ Hf). simpl. now rewrite app_nil_r.
Qed.

(** C10.  Let the listing return [itypes], none of them called [s].  Then
    [find_by_name s] returns [None], and [create_instance] with the plain
    string [s] as instance type raises [AttributeError] without asking the
    backend for a server; when the image argument resolves, the error is the
    missing [id] of [None] and the listing is the only call made. *)
Theorem create_instance_unknown_type_name (s : string) h itypes t :
  InstanceTypesService_list backend h = (Ok (PyList itypes), t) ->
  Forall (named_otherwise class_attr s) itypes ->
  find_by_name backend class_attr object_eq (PyStr s) h = (Ok PyNone, t)
  /\ t = [nova_flavors_list]
  /\ (exists a t',
         create_instance backend subclass class_attr object_eq
           name image (PyStr s) zone keypair security_groups user_data
           block_device_mapping network_interfaces kwargs h
         = (Raise (AttributeError a), t')
         /\ servers_create_calls t' = [])
  /\ (forall image_id,
         (if isinstance subclass image MachineImage then getattr class_attr image "image_id" else Ok image)
         = Ok image_id ->
         create_instance backend subclass class_attr object_eq
           name image (PyStr s) zone keypair security_groups user_data
           block_device_mapping network_interfaces kwargs h
         = (Raise (AttributeError "id"), t)).
Proof.
  intros Hl Hall.
  assert (Hf : find_by_name backend class_attr object_eq (PyStr s) h = (Ok PyNone, t))
    by now apply find_by_name_absent with (itypes := itypes).
  assert (Ht : t = [nova_flavors_list]).
  { pose proof (InstanceTypesService_list_trace backend h) as E.
    now rewrite Hl in E. }
  split; [exact Hf |]. split; [exact Ht |]. split.
  - destruct (if isinstance subclass image MachineImage
              then getattr class_attr image "image_id" else Ok image) as [image_id | e] eqn:Himg.
    + exists "id", t. split; [now apply create_instance_absent_type with (image_id := image_id) |].
      now rewrite Ht.
    + exists "image_id", []. split; [| reflexivity].
      unfold create_instance. rewrite resolve_lift, Himg, bind_lift_Raise.
      destruct (isinstance subclass image MachineImage); [| discriminate].
      now rewrite (getattr_Raise _ _ _ _ Himg).
  - intros image_id Himg. now apply create_instance_absent_type with (image_id := image_id).
Qed.
End UnknownInstanceType.

(** C10, witness: no flavor of [demo_backend] is called [m1.huge]. *)
Lemma create_instance_unknown_type_name_witness :
  find_by_name demo_backend std_class_attr std_object_eq (PyStr "m1.huge") []
  = (Ok PyNone, [nova_flavors_list])
  /\ create_instance demo_backend std_subclass std_class_attr std_object_eq
       (PyStr "vm") image1 (PyStr "m1.huge") zone1 keypair1 (PyList [web; db])
       PyNone PyNone PyNone [] []
     = (Raise (AttributeError "id"), [nova_flavors_list]).
Proof.
  assert (Hall : Forall (named_otherwise std_class_attr "m1.huge") demo_itypes)
    by (repeat constructor; apply demo_named_otherwise; discriminate).
  destruct (create_instance_unknown_type_name demo_backend std_subclass std_class_attr std_object_eq
              (PyStr "vm") image1 zone1 keypair1 (PyList [web; db]) PyNone PyNone PyNone []
              "m1.huge" [] demo_itypes [nova_flavors_list] eq_refl Hall)
    as (Hf & _ & _ & Hc).
  split; [exact Hf |].
  apply Hc with (image_id := PyStr "img-1"). reflexivity.
Defined.

(* ================================================================== *)
(** ** A domain object or its identifier *)

Section ObjectOrIdentifier.
Variable backend : backend_t.
Variable subclass : class -> class -> bool.
Variable class_attr : class -> list value -> string -> option value.
Variable object_eq : value -> value -> bool.

Section WithArguments.
Variables name image instance_type zone keypair security_groups user_data : value.
Variables block_device_mapping network_interfaces : value.
Variable kwargs : list (string * value).

Lemma create_instance_image_object (id : string) h :
  isinstance subclass image MachineImage = true ->
  getattr class_attr image "image_id" = Ok (PyStr id) ->
  create_instance backend subclass class_attr object_eq
    name image instance_type zone keypair security_groups user_data
    block_device_mapping network_interfaces kwargs h
  = create_instance backend subclass class_attr object_eq
      name (PyStr id) instance_type zone keypair security_groups user_data
      block_device_mapping network_interfaces kwargs h.
Proof.
  intros Hi Ha. unfold create_instance, attr. rewrite Hi, Ha. reflexivity.
Qed.

Lemma create_instance_zone_object (zone_name : string) h :
  isinstance subclass zone PlacementZone = true ->
  getattr class_attr zone "name" = Ok (PyStr zone_name) ->
  create_instance backend subclass class_attr object_eq
    name image instance_type zone keypair security_groups user_data
    block_device_mapping network_interfaces kwargs h
  = create_instance backend subclass class_attr object_eq
      name image instance_type (PyStr zone_name) keypair security_groups user_data
      block_device_mapping network_interfaces kwargs h.
Proof.
  intros Hi Ha. unfold create_instance, attr. rewrite Hi, Ha. reflexivity.
Qed.

Lemma create_instance_keypair_object (key_name : string) h :
  isinstance subclass keypair KeyPair = true ->
  getattr class_attr keypair "name" = Ok (PyStr key_name) ->
  create_instance backend subclass class_attr object_eq
    name image instance_type zone keypair security_groups user_data
    block_device_mapping network_interfaces kwargs h
  = create_instance backend subclass class_attr object_eq
      name image instance_type zone (PyStr key_name) security_groups user_data
      block_device_mapping network_interfaces kwargs h.
Proof.
  intros Hi Ha. unfold create_instance, attr. rewrite Hi, Ha. reflexivity.
Qed.

(** An instance-type object is resolved to its name, without a listing. *)
Lemma create_instance_type_object_run n h image_id zone_name keypair_name sgl :
  isinstance subclass instance_type InstanceType = true ->
  getattr class_attr instance_type "name" = Ok n ->
  (if isinstance subclass image MachineImage
   then getattr class_attr image "image_id" else Ok image) = Ok image_id ->
  (if isinstance subclass zone PlacementZone
   then getattr class_attr zone "name" else Ok zone) = Ok zone_name ->
  (if isinstance subclass keypair KeyPair
   then getattr class_attr keypair "name" else Ok keypair) = Ok keypair_name ->
  fst (security_groups_step subclass class_attr security_groups h) = Ok sgl ->
  create_instance backend subclass class_attr object_eq
    name image instance_type zone keypair security_groups user_data
    block_device_mapping network_interfaces kwargs h
  = (wrapped_reply OpenStackInstance
       (backend h (nova_servers_create name image_id n 1 1
                     zone_name keypair_name sgl user_data)),
     [nova_servers_create name image_id n 1 1 zone_name keypair_name sgl user_data]).
Proof.
  intros Hi Hn Himg Hzone Hkp Hsg.
  assert (Hsize : instance_size_step backend subclass class_attr object_eq instance_type h
                  = (Ok n, [])).
  { unfold instance_size_step, attr, lift. now rewrite Hi, Hn. }
  rewrite <- (app_nil_r h) in Hsg.
  rewrite (create_instance_run _ _ _ _ _ _ _ _ _ _ _ _ _ _ _ _ _ _ _ _ _
             Himg Hsize Hzone Hkp Hsg).
  now rewrite app_nil_r.
Qed.

(** Any other instance type is looked up by name in the listing, and the
    [id] of the type found is what the backend receives. *)
Lemma create_instance_type_name_run x i h t image_id zone_name keypair_name sgl :
  isinstance subclass instance_type InstanceType = false ->
  find_by_name backend class_attr object_eq instance_type h = (Ok x, t) ->
  getattr class_attr x "id" = Ok i ->
  (if isinstance subclass image MachineImage
   then getattr class_attr image "image_id" else Ok image) = Ok image_id ->
  (if isinstance subclass zone PlacementZone
   then getattr class_attr zone "name" else Ok zone) = Ok zone_name ->
  (if isinstance subclass keypair KeyPair
   then getattr class_attr keypair "name" else Ok keypair) = Ok keypair_name ->
  fst (security_groups_step subclass class_attr security_groups
         (h ++ [nova_flavors_list])) = Ok sgl ->
  create_instance backend subclass class_attr object_eq
    name image instance_type zone keypair security_groups user_data
    block_device_mapping network_interfaces kwargs h
  = (wrapped_reply OpenStackInstance
       (backend (h ++ [nova_flavors_list])
          (nova_servers_create name image_id i 1 1
             zone_name keypair_name sgl user_data)),
     [nova_flavors_list;
      nova_servers_create name image_id i 1 1 zone_name keypair_name sgl user_data]).
Proof.
  intros Hi Hf Hx Himg Hzone Hkp Hsg.
  assert (Ht : t = [nova_flavors_list]).
  { pose proof (find_by_name_trace backend class_attr object_eq instance_type h) as E.
    now rewrite Hf in E. }
  subst t.
  assert (Hsize : instance_size_step backend subclass class_attr object_eq instance_type h
                  = (Ok i, [nova_flavors_list])).
  { unfold instance_size_step. rewrite Hi, (bind_Ok _ _ _ _ _ Hf).
    unfold attr, lift. now rewrite Hx. }
  now rewrite (create_instance_run _ _ _ _ _ _ _ _ _ _ _ _ _ _ _ _ _ _ _ _ _
                 Himg Hsize Hzone Hkp Hsg).
Qed.
End WithArguments.

Lemma create_volume_zone_object name size zone snapshot (zone_name : string) h :
  isinstance subclass zone PlacementZone = true ->
  isinstance subclass zone OpenStackSnapshot = false ->
  getattr class_attr zone "name" = Ok (PyStr zone_name) ->
  create_volume backend subclass class_attr name size zone snapshot h
  = create_volume backend subclass class_attr name size (PyStr zone_name) snapshot h.
Proof.
  intros Hi Hs Ha. unfold create_volume, attr. rewrite Hi, Hs, Ha. reflexivity.
Qed.

Lemma create_snapshot_volume_object name volume description (id : string) h :
  isinstance subclass volume OpenStackVolume = true ->
  getattr class_attr volume "volume_id" = Ok (PyStr id) ->
  create_snapshot backend subclass class_attr name volume description h
  = create_snapshot backend subclass class_attr name (PyStr id) description h.
Proof.
  intros Hi Ha. unfold create_snapshot, attr. rewrite Hi, Ha. reflexivity.
Qed.
End ObjectOrIdentifier.

(** C3, as amended.  For the image, zone and keypair of [create_instance],
    the zone of [create_volume] (a zone object that is not also an
    [OpenStackSnapshot]) and the volume of [create_snapshot], a domain object
    and its bare identifier give the same client calls and the same result.
    The instance type is resolved otherwise.  When the other arguments
    resolve, an [InstanceType] object is sent by its [name] and
    [servers.create] is the only client call; any other value is looked up by
    name: the client calls are the flavor listing and then [servers.create],
    which carries the [id] of the type found.  In both cases the outcome is
    the answer to [servers.create]. *)
Theorem object_or_identifier_same_outcome
    (backend : backend_t) (subclass : class -> class -> bool)
    (class_attr : class -> list value -> string -> option value)
    (object_eq : value -> value -> bool) :
  (forall name image instance_type zone keypair security_groups user_data
          block_device_mapping network_interfaces kwargs (id : string) h,
      isinstance subclass image MachineImage = true ->
      getattr class_attr image "image_id" = Ok (PyStr id) ->
      create_instance backend subclass class_attr object_eq
        name image instance_type zone keypair security_groups user_data
        block_device_mapping network_interfaces kwargs h
      = create_instance backend subclass class_attr object_eq
          name (PyStr id) instance_type zone keypair security_groups user_data
          block_device_mapping network_interfaces kwargs h)
  /\ (forall name image instance_type zone keypair security_groups user_data
             block_device_mapping network_interfaces kwargs (zone_name : string) h,
         isinstance subclass zone PlacementZone = true ->
         getattr class_attr zone "name" = Ok (PyStr zone_name) ->
         create_instance backend subclass class_attr object_eq
           name image instance_type zone keypair security_groups user_data
           block_device_mapping network_interfaces kwargs h
         = create_instance backend subclass class_attr object_eq
             name image instance_type (PyStr zone_name) keypair security_groups user_data
             block_device_mapping network_interfaces kwargs h)
  /\ (forall name image instance_type zone keypair security_groups user_data
             block_device_mapping network_interfaces kwargs (key_name : string) h,
         isinstance subclass keypair KeyPair = true ->
         getattr class_attr keypair "name" = Ok (PyStr key_name) ->
         create_instance backend subclass class_attr object_eq
           name image instance_type zone keypair security_groups user_data
           block_device_mapping network_interfaces kwargs h
         = create_instance backend subclass class_attr object_eq
             name image instance_type zone (PyStr key_name) security_groups user_data
             block_device_mapping network_interfaces kwargs h)
  /\ (forall name size zone snapshot (zone_name : string) h,
         isinstance subclass zone PlacementZone = true ->
         isinstance subclass zone OpenStackSnapshot = false ->
         getattr class_attr zone "name" = Ok (PyStr zone_name) ->
         create_volume backend subclass class_attr name size zone snapshot h
         = create_volume backend subclass class_attr name size (PyStr zone_name) snapshot h)
  /\ (forall name volume description (id : string) h,
         isinstance subclass volume OpenStackVolume = true ->
         getattr class_attr volume "volume_id" = Ok (PyStr id) ->
         create_snapshot backend subclass class_attr name volume description h
         = create_snapshot backend subclass class_attr name (PyStr id) description h)
  /\ (forall name image instance_type zone keypair security_groups user_data
             block_device_mapping network_interfaces kwargs
             n h image_id zone_name keypair_name sgl,
         isinstance subclass instance_type InstanceType = true ->
         getattr class_attr instance_type "name" = Ok n ->
         (if isinstance subclass image MachineImage
          then getattr class_attr image "image_id" else Ok image) = Ok image_id ->
         (if isinstance subclass zone PlacementZone
          then getattr class_attr zone "name" else Ok zone) = Ok zone_name ->
         (if isinstance subclass keypair KeyPair
          then getattr class_attr keypair "name" else Ok keypair) = Ok keypair_name ->
         fst (security_groups_step subclass class_attr security_groups h) = Ok sgl ->
         create_instance backend subclass class_attr object_eq
           name image instance_type zone keypair security_groups user_data
           block_device_mapping network_interfaces kwargs h
         = (wrapped_reply OpenStackInstance
              (backend h (nova_servers_create name image_id n 1 1
                            zone_name keypair_name sgl user_data)),
            [nova_servers_create name image_id n 1 1
               zone_name keypair_name sgl user_data]))
  /\ (forall name image instance_type zone keypair security_groups user_data
             block_device_mapping network_interfaces kwargs
             x i h t image_id zone_name keypair_name sgl,
         isinstance subclass instance_type InstanceType = false ->
         find_by_name backend class_attr object_eq instance_type h = (Ok x, t) ->
         getattr class_attr x "id" = Ok i ->
         (if isinstance subclass image MachineImage
          then getattr class_attr image "image_id" else Ok image) = Ok image_id ->
         (if isinstance subclass zone PlacementZone
          then getattr class_attr zone "name" else Ok zone) = Ok zone_name ->
         (if isinstance subclass keypair KeyPair
          then getattr class_attr keypair "name" else Ok keypair) = Ok keypair_name ->
         fst (security_groups_step subclass class_attr security_groups
                (h ++ [nova_flavors_list])) = Ok sgl ->
         create_instance backend subclass class_attr object_eq
           name image instance_type zone keypair security_groups user_data
           block_device_mapping network_interfaces kwargs h
         = (wrapped_reply OpenStackInstance
              (backend (h ++ [nova_flavors_list])
                 (nova_servers_create name image_id i 1 1
                    zone_name keypair_name sgl user_data)),
            [nova_flavors_list;
             nova_servers_create name image_id i 1 1
               zone_name keypair_name sgl user_data])).
Proof.
  split; [intros; now apply create_instance_image_object |].
  split; [intros; now apply create_instance_zone_object |].
  split; [intros; now apply create_instance_keypair_object |].
  split; [intros; now apply create_volume_zone_object |].
  split; [intros; now apply create_snapshot_volume_object |].
  split; [intros; now apply create_instance_type_object_run |].
  intros. now apply create_instance_type_name_run with (x := x) (t := t).
Qed.

(** C3, witness: each part on the sample objects. *)
Lemma object_or_identifier_same_outcome_witness :
  create_instance demo_backend std_subclass std_class_attr std_object_eq
    (PyStr "vm") image1 small zone1 keypair1 PyNone PyNone PyNone PyNone [] []
  = create_instance demo_backend std_subclass std_class_attr std_object_eq
      (PyStr "vm") (PyStr "img-1") small zone1 keypair1 PyNone PyNone PyNone PyNone [] []
  /\ create_instance demo_backend std_subclass std_class_attr std_object_eq
       (PyStr "vm") image1 small zone1 keypair1 PyNone PyNone PyNone PyNone [] []
     = create_instance demo_backend std_subclass std_class_attr std_object_eq
         (PyStr "vm") image1 small (PyStr "nova") keypair1 PyNone PyNone PyNone PyNone [] []
  /\ create_instance demo_backend std_subclass std_class_attr std_object_eq
       (PyStr "vm") image1 small zone1 keypair1 PyNone PyNone PyNone PyNone [] []
     = create_instance demo_backend std_subclass std_class_attr std_object_eq
         (PyStr "vm") image1 small zone1 (PyStr "mykey") PyNone PyNone PyNone PyNone [] []
  /\ create_volume demo_backend std_subclass std_class_attr
       (PyStr "data") (PyInt 10) zone1 PyNone []
     = create_volume demo_backend std_subclass std_class_attr
         (PyStr "data") (PyInt 10) (PyStr "nova") PyNone []
  /\ create_snapshot demo_backend std_subclass std_class_attr
       (PyStr "nightly") volume1 PyNone []
     = create_snapshot demo_backend std_subclass std_class_attr
         (PyStr "nightly") (PyStr "vol-1") PyNone []
  /\ create_instance demo_backend std_subclass std_class_attr std_object_eq
       (PyStr "vm") image1 small zone1 keypair1 PyNone PyNone PyNone PyNone [] []
     = (Ok (New OpenStackInstance
              [Provider;
               Resource [("id", PyStr "srv-1"); ("name", PyStr "vm");
                         ("image", PyStr "img-1"); ("flavor", PyStr "m1.small")]]),
        [nova_servers_create (PyStr "vm") (PyStr "img-1") (PyStr "m1.small") 1 1
           (PyStr "nova") (PyStr "mykey") PyNone PyNone])
  /\ create_instance demo_backend std_subclass std_class_attr std_object_eq
       (PyStr "vm") image1 (PyStr "m1.small") zone1 keypair1
       PyNone PyNone PyNone PyNone [] []
     = (Ok (New OpenStackInstance
              [Provider;
               Resource [("id", PyStr "srv-1"); ("name", PyStr "vm");
                         ("image", PyStr "img-1"); ("flavor", PyStr "2")]]),
        [nova_flavors_list;
         nova_servers_create (PyStr "vm") (PyStr "img-1") (PyStr "2") 1 1
           (PyStr "nova") (PyStr "mykey") PyNone PyNone]).
Proof.
  destruct (object_or_identifier_same_outcome demo_backend std_subclass std_class_attr
              std_object_eq)
    as (Himage & Hzone & Hkey & Hvzone & Hvol & Hobj & Hname).
  split; [apply Himage; reflexivity |].
  split; [apply Hzone; reflexivity |].
  split; [apply Hkey; reflexivity |].
  split; [apply Hvzone; reflexivity |].
  split; [apply Hvol; reflexivity |].
  split.
  - exact (Hobj (PyStr "vm") image1 small zone1 keypair1 PyNone PyNone PyNone PyNone []
             (PyStr "m1.small") [] (PyStr "img-1") (PyStr "nova") (PyStr "mykey") PyNone
             eq_refl eq_refl eq_refl eq_refl eq_refl eq_refl).
  - exact (Hname (PyStr "vm") image1 (PyStr "m1.small") zone1 keypair1
             PyNone PyNone PyNone PyNone []
             small (PyStr "2") [] [nova_flavors_list]
             (PyStr "img-1") (PyStr "nova") (PyStr "mykey") PyNone
             eq_refl eq_refl eq_refl eq_refl eq_refl eq_refl eq_refl).
Defined.

(** C3, counterexample.  The snapshot [snapshot1] has identifier ["snap-1"],
    and [create_volume] sends the backend the object in one case and the
    string in the other.  The instance type [small] is called ["m1.small"] and
    has identifier ["2"]: given the object the backend receives the flavor
    ["m1.small"]; given the name it is asked for the listing and receives the
    flavor ["2"]; given the identifier, [create_instance] raises. *)
Lemma object_and_identifier_differ :
  getattr std_class_attr snapshot1 "snapshot_id" = Ok (PyStr "snap-1")
  /\ create_volume demo_backend std_subclass std_class_attr
       (PyStr "data") (PyInt 10) (PyStr "nova") snapshot1 []
     <> create_volume demo_backend std_subclass std_class_attr
          (PyStr "data") (PyInt 10) (PyStr "nova") (PyStr "snap-1") []
  /\ getattr std_class_attr small "name" = Ok (PyStr "m1.small")
  /\ getattr std_class_attr small "id" = Ok (PyStr "2")
  /\ snd (create_instance demo_backend std_subclass std_class_attr std_object_eq
            (PyStr "vm") (PyStr "img-1") small PyNone PyNone PyNone PyNone PyNone PyNone [] [])
     = [nova_servers_create (PyStr "vm") (PyStr "img-1") (PyStr "m1.small") 1 1
          PyNone PyNone PyNone PyNone]
  /\ snd (create_instance demo_backend std_subclass std_class_attr std_object_eq
            (PyStr "vm") (PyStr "img-1") (PyStr "m1.small")
            PyNone PyNone PyNone PyNone PyNone PyNone [] [])
     = [nova_flavors_list;
        nova_servers_create (PyStr "vm") (PyStr "img-1") (PyStr "2") 1 1
          PyNone PyNone PyNone PyNone]
  /\ create_instance demo_backend std_subclass std_class_attr std_object_eq
       (PyStr "vm") (PyStr "img-1") (PyStr "2")
       PyNone PyNone PyNone PyNone PyNone PyNone [] []
     = (Raise (AttributeError "id"), [nova_flavors_list])
  /\ create_instance demo_backend std_subclass std_class_attr std_object_eq
       (PyStr "vm") (PyStr "img-1") small PyNone PyNone PyNone PyNone PyNone PyNone [] []
     <> create_instance demo_backend std_subclass std_class_attr std_object_eq
          (PyStr "vm") (PyStr "img-1") (PyStr "m1.small")
          PyNone PyNone PyNone PyNone PyNone PyNone [] []
  /\ create_instance demo_backend std_subclass std_class_attr std_object_eq
       (PyStr "vm") (PyStr "img-1") small PyNone PyNone PyNone PyNone PyNone PyNone [] []
     <> create_instance demo_backend std_subclass std_class_attr std_object_eq
          (PyStr "vm") (PyStr "img-1") (PyStr "2")
          PyNone PyNone PyNone PyNone PyNone PyNone [] [].
Proof.
  split; [reflexivity |].
  split; [intros H; vm_compute in H; discriminate H |].
  do 5 (split; [reflexivity |]).
  split; intros H; vm_compute in H; discriminate H.
Qed.

(* ================================================================== *)
(** ** Key pairs *)

Section KeyPairCalls.
Variable obj : Type.
Variable crypto : list (crypto_call obj) -> crypto_call obj -> result obj.

(** C9.  [generate_key_pair] takes no argument.  Every call it makes to the
    [cryptography] package asks for a 2048-bit RSA key (public exponent
    65537), for the private part as PEM, PKCS8, unencrypted, or for the
    public part in OpenSSH encoding and format; and when the package
    answers each call, the result is the pair of the bytes it returned for
    the private and for the public part, after exactly these five calls. *)
Theorem generate_key_pair_calls h :
  (forall c, In c (snd (generate_key_pair crypto h)) -> key_pair_call_ok c)
  /\ (forall be key private pk public,
         crypto h default_backend = Ok be ->
         crypto (h ++ [default_backend])
           (rsa_generate_private_key be 65537 2048) = Ok key ->
         crypto (h ++ [default_backend; rsa_generate_private_key be 65537 2048])
           (private_bytes key Encoding.PEM PrivateFormat.PKCS8 NoEncryption)
         = Ok private ->
         crypto (h ++ [default_backend; rsa_generate_private_key be 65537 2048;
                       private_bytes key Encoding.PEM PrivateFormat.PKCS8 NoEncryption])
           (public_key key) = Ok pk ->
         crypto (h ++ [default_backend; rsa_generate_private_key be 65537 2048;
                       private_bytes key Encoding.PEM PrivateFormat.PKCS8 NoEncryption;
                       public_key key])
           (public_bytes pk Encoding.OpenSSH PublicFormat.OpenSSH) = Ok public ->
         generate_key_pair crypto h
         = (Ok (private, public),
            [default_backend; rsa_generate_private_key be 65537 2048;
             private_bytes key Encoding.PEM PrivateFormat.PKCS8 NoEncryption;
             public_key key;
             public_bytes pk Encoding.OpenSSH PublicFormat.OpenSSH])).
Proof.
  split.
  - intros c. unfold generate_key_pair, bind, invoke, ret.
    repeat match goal with
           | |- context [match crypto ?h' ?c' with _ => _ end] =>
               destruct (crypto h' c')
           end;
      simpl; intros Hin;
      repeat (destruct Hin as [<- | Hin]; [simpl; auto |]);
      contradiction.
  - intros be key private pk public H1 H2 H3 H4 H5.
    unfold generate_key_pair, bind, invoke, ret.
    rewrite H1. simpl. rewrite H2. rewrite <- ?app_assoc. simpl.
    rewrite H3, H4, H5. reflexivity.
Qed.
End KeyPairCalls.

(** C9, witness: a package that numbers the objects it hands out. *)
Lemma generate_key_pair_calls_witness :
  generate_key_pair counting_crypto []
  = (Ok (2, 4),
     [default_backend; rsa_generate_private_key 0 65537 2048;
      private_bytes 1 Encoding.PEM PrivateFormat.PKCS8 NoEncryption;
      public_key 1;
      public_bytes 3 Encoding.OpenSSH PublicFormat.OpenSSH]).
Proof.
  apply (proj2 (generate_key_pair_calls nat counting_crypto [])); reflexivity.
Defined.

(* ================================================================== *)
(** ** More on lookups by identifier *)

(** X1.  [get_image], [get_volume], [get_snapshot] and [get_instance] answer
    [None], after their one client call, whenever the client raises the
    not-found exception they watch for. *)
Theorem get_by_id_not_found_returns_None (backend : backend_t) :
  (forall image_id h,
      backend h (nova_images_get image_id) = Raise NovaNotFound ->
      get_image backend image_id h = (Ok PyNone, [nova_images_get image_id]))
  /\ (forall volume_id h,
         backend h (cinder_volumes_get volume_id) = Raise CinderNotFound ->
         get_volume backend volume_id h = (Ok PyNone, [cinder_volumes_get volume_id]))
  /\ (forall snapshot_id h,
         backend h (cinder_volume_snapshots_get snapshot_id) = Raise CinderNotFound ->
         get_snapshot backend snapshot_id h
         = (Ok PyNone, [cinder_volume_snapshots_get snapshot_id]))
  /\ (forall instance_id h,
         backend h (nova_servers_get instance_id) = Raise NovaNotFound ->
         get_instance backend instance_id h
         = (Ok PyNone, [nova_servers_get instance_id])).
Proof.
  split; [intros; now apply get_image_not_found |].
  split; [intros; now apply get_volume_not_found |].
  split; [intros; now apply get_snapshot_not_found |].
  intros; now apply get_instance_not_found.
Qed.

Lemma get_by_id_not_found_returns_None_witness :
  get_image empty_backend (PyStr "img-404") [] = (Ok PyNone, [nova_images_get (PyStr "img-404")])
  /\ get_volume empty_backend (PyStr "vol-404") []
     = (Ok PyNone, [cinder_volumes_get (PyStr "vol-404")])
  /\ get_snapshot empty_backend (PyStr "snap-404") []
     = (Ok PyNone, [cinder_volume_snapshots_get (PyStr "snap-404")])
  /\ get_instance empty_backend (PyStr "srv-404") []
     = (Ok PyNone, [nova_servers_get (PyStr "srv-404")]).
Proof.
  destruct (get_by_id_not_found_returns_None empty_backend) as (Hi & Hv & Hs & Hn).
  split; [apply Hi; reflexivity |].
  split; [apply Hv; reflexivity |].
  split; [apply Hs; reflexivity | apply Hn; reflexivity].
Defined.

(** X2.  The four handlers catch one exception class each: any other
    exception of the client, the other client's not-found included, reaches
    the caller as it was raised. *)
Theorem get_by_id_other_errors_propagate (backend : backend_t) :
  (forall image_id h e,
      backend h (nova_images_get image_id) = Raise e ->
      e <> NovaNotFound ->
      get_image backend image_id h = (Raise e, [nova_images_get image_id]))
  /\ (forall volume_id h e,
         backend h (cinder_volumes_get volume_id) = Raise e ->
         e <> CinderNotFound ->
         get_volume backend volume_id h = (Raise e, [cinder_volumes_get volume_id]))
  /\ (forall snapshot_id h e,
         backend h (cinder_volume_snapshots_get snapshot_id) = Raise e ->
         e <> CinderNotFound ->
         get_snapshot backend snapshot_id h
         = (Raise e, [cinder_volume_snapshots_get snapshot_id]))
  /\ (forall instance_id h e,
         backend h (nova_servers_get instance_id) = Raise e ->
         e <> NovaNotFound ->
         get_instance backend instance_id h
         = (Raise e, [nova_servers_get instance_id])).
Proof.
  repeat split; intros x h e Hb Hne;
    unfold get_image, get_volume, get_snapshot, get_instance,
      try_except, bind, nova_cinder, invoke;
    rewrite Hb; destruct e; try reflexivity; contradiction.
Qed.

Lemma get_by_id_other_errors_propagate_witness :
  get_image broken_backend (PyStr "img-1") []
  = (Raise (BackendError "connection refused"), [nova_images_get (PyStr "img-1")])
  /\ get_volume broken_backend (PyStr "vol-1") []
     = (Raise (BackendError "connection refused"), [cinder_volumes_get (PyStr "vol-1")]).
Proof.
  destruct (get_by_id_other_errors_propagate broken_backend) as (Hi & Hv & _).
  split; [apply Hi | apply Hv]; (reflexivity || discriminate).
Defined.

(** X3.  A found record is returned wrapped, whatever it is: the four
    handlers make no test on the record, an empty one included. *)
Theorem get_by_id_wraps_record (backend : backend_t) :
  (forall image_id h r,
      backend h (nova_images_get image_id) = Ok r ->
      get_image backend image_id h
      = (Ok (New OpenStackMachineImage [Provider; r]), [nova_images_get image_id]))
  /\ (forall volume_id h r,
         backend h (cinder_volumes_get volume_id) = Ok r ->
         get_volume backend volume_id h
         = (Ok (New OpenStackVolume [Provider; r]), [cinder_volumes_get volume_id]))
  /\ (forall snapshot_id h r,
         backend h (cinder_volume_snapshots_get snapshot_id) = Ok r ->
         get_snapshot backend snapshot_id h
         = (Ok (New OpenStackSnapshot [Provider; r]),
            [cinder_volume_snapshots_get snapshot_id]))
  /\ (forall instance_id h r,
         backend h (nova_servers_get instance_id) = Ok r ->
         get_instance backend instance_id h
         = (Ok (New OpenStackInstance [Provider; r]), [nova_servers_get instance_id])).
Proof.
  repeat split; intros x h r Hb;
    unfold get_image, get_volume, get_snapshot, get_instance,
      try_except, bind, nova_cinder, invoke;
    rewrite Hb; reflexivity.
Qed.

Lemma get_by_id_wraps_record_witness :
  get_image account_backend (PyStr "img-1") []
  = (Ok (New OpenStackMachineImage
           [Provider; Resource [("id", PyStr "img-1"); ("name", PyStr "ubuntu")]]),
     [nova_images_get (PyStr "img-1")])
  /\ get_volume account_backend (PyStr "vol-1") []
     = (Ok (New OpenStackVolume [Provider; PyNone]), [cinder_volumes_get (PyStr "vol-1")]).
Proof.
  destruct (get_by_id_wraps_record account_backend) as (Hi & Hv & _).
  split; [apply Hi | apply Hv]; reflexivity.
Defined.

(* ================================================================== *)
(** ** Security groups *)

Section SecurityGroups.
Variable backend : backend_t.
Variable class_attr : class -> list value -> string -> option value.

(** X4.  The security-group [get] builds its result from the [id], [name]
    and [description] of a non-empty record; when one of the three is missing
    from the record it raises the attribute error of the first one missing,
    and returns no group. *)
Theorem security_group_get_from_record group_id h sg :
  backend h (nova_security_groups_get group_id) = Ok sg ->
  truthy sg = true ->
  (forall i n d,
      getattr class_attr sg "id" = Ok i ->
      getattr class_attr sg "name" = Ok n ->
      getattr class_attr sg "description" = Ok d ->
      SecurityGroupService_get backend class_attr group_id h
      = (Ok (New BaseSecurityGroup [i; n; d]), [nova_security_groups_get group_id]))
  /\ (forall e,
         getattr class_attr sg "id" = Raise e
         \/ (exists i, getattr class_attr sg "id" = Ok i
                       /\ getattr class_attr sg "name" = Raise e)
         \/ (exists i n, getattr class_attr sg "id" = Ok i
                         /\ getattr class_attr sg "name" = Ok n
                         /\ getattr class_attr sg "description" = Raise e) ->
         SecurityGroupService_get backend class_attr group_id h
         = (Raise e, [nova_security_groups_get group_id])
         /\ exists a, e = AttributeError a).
Proof.
  intros Hb Ht. unfold SecurityGroupService_get, bind, nova_cinder, invoke, attr, lift.
  rewrite Hb, Ht. split.
  - intros i n d Hi Hn Hd. rewrite Hi, Hn, Hd. reflexivity.
  - intros e [Hi | [(i & Hi & Hn) | (i & n & Hi & Hn & Hd)]].
    + rewrite Hi. split; [reflexivity |].
      exists "id". now apply getattr_Raise with (class_attr := class_attr) (v := sg).
    + rewrite Hi, Hn. split; [reflexivity |].
      exists "name". now apply getattr_Raise with (class_attr := class_attr) (v := sg).
    + rewrite Hi, Hn, Hd. split; [reflexivity |].
      exists "description".
      now apply getattr_Raise with (class_attr := class_attr) (v := sg).
Qed.

(** X5.  The security-group [create] takes only the [id] from the record the
    backend answers with: the group it returns carries the name and the
    description it was called with, whatever the record says.  A non-empty
    record without [id] makes it raise [AttributeError], and a failure of the
    client's create call reaches the caller. *)
Theorem security_group_create_keeps_arguments name description h :
  (forall sg i,
      backend h (nova_security_groups_create name description) = Ok sg ->
      truthy sg = true ->
      getattr class_attr sg "id" = Ok i ->
      SecurityGroupService_create backend class_attr name description h
      = (Ok (New BaseSecurityGroup [i; name; description]),
         [nova_security_groups_create name description]))
  /\ (forall sg e,
         backend h (nova_security_groups_create name description) = Ok sg ->
         truthy sg = true ->
         getattr class_attr sg "id" = Raise e ->
         SecurityGroupService_create backend class_attr name description h
         = (Raise (AttributeError "id"), [nova_security_groups_create name description]))
  /\ (forall e,
         backend h (nova_security_groups_create name description) = Raise e ->
         SecurityGroupService_create backend class_attr name description h
         = (Raise e, [nova_security_groups_create name description])).
Proof.
  unfold SecurityGroupService_create, bind, nova_cinder, invoke, attr, lift.
  split; [| split].
  - intros sg i Hb Ht Hi. rewrite Hb, Ht, Hi. reflexivity.
  - intros sg e Hb Ht Hi. rewrite Hb, Ht, Hi.
    now rewrite (getattr_Raise _ _ _ _ Hi).
  - intros e Hb. rewrite Hb. reflexivity.
Qed.
End SecurityGroups.

Lemma security_group_get_from_record_witness :
  SecurityGroupService_get account_backend std_class_attr (PyStr "sg-1") []
  = (Ok (New BaseSecurityGroup [PyStr "sg-1"; PyStr "web"; PyStr "http and https"]),
     [nova_security_groups_get (PyStr "sg-1")])
  /\ SecurityGroupService_get account_backend std_class_attr (PyStr "sg-3")
       [nova_security_groups_list]
     = (Raise (AttributeError "description"), [nova_security_groups_get (PyStr "sg-3")]).
Proof.
  split.
  - apply (proj1 (security_group_get_from_record account_backend std_class_attr
                    (PyStr "sg-1") [] _ eq_refl eq_refl)); reflexivity.
  - apply (proj2 (security_group_get_from_record account_backend std_class_attr
                    (PyStr "sg-3") [nova_security_groups_list] _ eq_refl eq_refl)).
    right. right. exists (PyStr "sg-3"), (PyStr "cache"). repeat split.
Defined.

Lemma security_group_create_keeps_arguments_witness :
  SecurityGroupService_create account_backend std_class_attr
    (PyStr "web") (PyStr "http and https") []
  = (Ok (New BaseSecurityGroup [PyStr "sg-9"; PyStr "web"; PyStr "http and https"]),
     [nova_security_groups_create (PyStr "web") (PyStr "http and https")])
  /\ SecurityGroupService_create account_backend std_class_attr
       (PyStr "web") (PyStr "http and https") [nova_security_groups_list]
     = (Raise (AttributeError "id"),
        [nova_security_groups_create (PyStr "web") (PyStr "http and https")])
  /\ SecurityGroupService_create broken_backend std_class_attr
       (PyStr "web") (PyStr "http and https") []
     = (Raise (BackendError "connection refused"),
        [nova_security_groups_create (PyStr "web") (PyStr "http and https")]).
Proof.
  split; [| split].
  - apply (proj1 (security_group_create_keeps_arguments account_backend std_class_attr
                    (PyStr "web") (PyStr "http and https") []))
      with (sg := group_record "sg-9" "renamed" "by the backend"); reflexivity.
  - apply (proj1 (proj2 (security_group_create_keeps_arguments account_backend
                           std_class_attr (PyStr "web") (PyStr "http and https")
                           [nova_security_groups_list])))
      with (sg := Resource [("name", PyStr "no id")]) (e := AttributeError "id");
      reflexivity.
  - apply (proj2 (proj2 (security_group_create_keeps_arguments broken_backend
                           std_class_attr (PyStr "web") (PyStr "http and https") [])));
      reflexivity.
Defined.

(* ================================================================== *)
(** ** Listings *)

Section MapM.
Context {A B : Type}.
Variable f : A -> M call B.

(** A comprehension over elements that all convert gives the converted
    list, in order. *)
Lemma mapM_all_Ok (xs : list A) (ys : list B) h :
  Forall2 (fun x y => forall h', f x h' = (Ok y, [])) xs ys ->
  mapM f xs h = (Ok ys, []).
Proof.
  intros Hall. revert h.
  induction Hall as [| x y xs ys Hx _ IH]; intros h; simpl.
  - reflexivity.
  - rewrite (bind_Ok _ _ _ _ _ (Hx h)). simpl.
    rewrite (bind_Ok _ _ _ _ _ (IH (h ++ []))). reflexivity.
Qed.

(** It raises at the first element that does not convert. *)
Lemma mapM_first_Raise (pre post : list A) (x : A) (e : exn) h :
  Forall (fun x' => exists y, forall h', f x' h' = (Ok y, [])) pre ->
  (forall h', f x h' = (Raise e, [])) ->
  mapM f (pre ++ x :: post) h = (Raise e, []).
Proof.
  intros Hpre Hx. revert h.
  induction Hpre as [| x' pre (y & Hy) _ IH]; intros h; simpl.
  - now rewrite (bind_Raise _ _ _ _ _ (Hx h)).
  - rewrite (bind_Ok _ _ _ _ _ (Hy h)). simpl.
    now rewrite (bind_Raise _ _ _ _ _ (IH (h ++ []))).
Qed.
End MapM.

Section AccountListings.
Variable backend : backend_t.
Variable class_attr : class -> list value -> string -> option value.

Local Notation getattr := (getattr class_attr).

Lemma key_pair_of_record kp i h :
  getattr kp "id" = Ok i ->
  (i <- attr class_attr kp "id" ;; ret (New BaseKeyPair [i])) h
  = (Ok (New BaseKeyPair [i]), []).
Proof. intros Hi. unfold attr. now rewrite Hi, bind_lift_Ok. Qed.

Lemma key_pair_of_record_Raise kp e h :
  getattr kp "id" = Raise e ->
  (i <- attr class_attr kp "id" ;; ret (New BaseKeyPair [i])) h
  = (Raise (AttributeError "id"), []).
Proof.
  intros Hi. unfold attr. rewrite Hi, bind_lift_Raise.
  now rewrite (getattr_Raise _ _ _ _ Hi).
Qed.

(** X6.  [KeyPairService.list] returns one [BaseKeyPair] per record of the
    backend's listing, built from the record's [id], in the backend's order;
    if a record has no [id], the whole listing raises [AttributeError] and no
    partial list is returned.  Either way the backend is asked once. *)
Theorem KeyPairService_list_by_id h kps :
  backend h nova_keypairs_list = Ok (PyList kps) ->
  (forall ids,
      Forall2 (fun kp i => getattr kp "id" = Ok i) kps ids ->
      KeyPairService_list backend class_attr h
      = (Ok (PyList (map (fun i => New BaseKeyPair [i]) ids)), [nova_keypairs_list]))
  /\ (forall pre kp post e,
         kps = pre ++ kp :: post ->
         Forall (fun kp' => exists i, getattr kp' "id" = Ok i) pre ->
         getattr kp "id" = Raise e ->
         KeyPairService_list backend class_attr h
         = (Raise (AttributeError "id"), [nova_keypairs_list])).
Proof.
  intros Hb.
  assert (Hcall : nova_cinder backend nova_keypairs_list h
                  = (Ok (PyList kps), [nova_keypairs_list])).
  { unfold nova_cinder, invoke. now rewrite Hb. }
  split.
  - intros ids Hall. unfold KeyPairService_list.
    rewrite (bind_Ok _ _ _ _ _ Hcall). cbn [iter]. rewrite bind_ret.
    assert (Hm : Forall2
                   (fun kp o => forall h',
                        (i <- attr class_attr kp "id" ;; ret (New BaseKeyPair [i])) h'
                        = (Ok o, []))
                   kps (map (fun i => New BaseKeyPair [i]) ids)).
    { clear - Hall.
      induction Hall as [| kp i kps' ids' Hi _ IH]; simpl; constructor.
      - intros h'. now apply key_pair_of_record.
      - exact IH. }
    rewrite (bind_Ok _ _ _ _ _ (mapM_all_Ok _ _ _ _ Hm)). reflexivity.
  - intros pre kp post e -> Hpre Hkp. unfold KeyPairService_list.
    rewrite (bind_Ok _ _ _ _ _ Hcall). cbn [iter]. rewrite bind_ret.
    assert (Hm : forall h0,
               mapM (fun kp0 => i <- attr class_attr kp0 "id" ;; ret (New BaseKeyPair [i]))
                 (pre ++ kp :: post) h0 = (Raise (AttributeError "id"), [])).
    { intros h0. apply mapM_first_Raise.
      - eapply Forall_impl; [| exact Hpre].
        intros kp' (i & Hi). exists (New BaseKeyPair [i]).
        intros h'. now apply key_pair_of_record.
      - intros h'. now apply key_pair_of_record_Raise with (e := e). }
    rewrite (bind_Raise _ _ _ _ _ (Hm _)). reflexivity.
Qed.

Lemma group_of_record g i n d h :
  getattr g "id" = Ok i -> getattr g "name" = Ok n -> getattr g "description" = Ok d ->
  (i <- attr class_attr g "id" ;;
   n <- attr class_attr g "name" ;;
   d <- attr class_attr g "description" ;;
   ret (New BaseSecurityGroup [i; n; d])) h
  = (Ok (New BaseSecurityGroup [i; n; d]), []).
Proof.
  intros Hi Hn Hd. unfold attr.
  now rewrite Hi, bind_lift_Ok, Hn, bind_lift_Ok, Hd, bind_lift_Ok.
Qed.

(** X7.  [SecurityGroupService.list] returns one [BaseSecurityGroup] per
    record of the backend's listing, built from the record's [id], [name]
    and [description], in the backend's order, after one client call. *)
Theorem SecurityGroupService_list_by_record h groups objs :
  backend h nova_security_groups_list = Ok (PyList groups) ->
  Forall2 (fun g o => exists i n d,
               getattr g "id" = Ok i /\ getattr g "name" = Ok n
               /\ getattr g "description" = Ok d
               /\ o = New BaseSecurityGroup [i; n; d]) groups objs ->
  SecurityGroupService_list backend class_attr h
  = (Ok (PyList objs), [nova_security_groups_list]).
Proof.
  intros Hb Hall.
  assert (Hcall : nova_cinder backend nova_security_groups_list h
                  = (Ok (PyList groups), [nova_security_groups_list])).
  { unfold nova_cinder, invoke. now rewrite Hb. }
  unfold SecurityGroupService_list.
  rewrite (bind_Ok _ _ _ _ _ Hcall). cbn [iter]. rewrite bind_ret.
  assert (Hm : Forall2
                 (fun g o => forall h',
                      (i <- attr class_attr g "id" ;;
                       n <- attr class_attr g "name" ;;
                       d <- attr class_attr g "description" ;;
                       ret (New BaseSecurityGroup [i; n; d])) h' = (Ok o, []))
                 groups objs).
  { eapply Forall2_impl; [| exact Hall].
    intros g o (i & n & d & Hi & Hn & Hd & ->) h'. now apply group_of_record. }
  rewrite (bind_Ok _ _ _ _ _ (mapM_all_Ok _ _ _ _ Hm)). reflexivity.
Qed.
End AccountListings.

Lemma KeyPairService_list_by_id_witness :
  KeyPairService_list account_backend std_class_attr []
  = (Ok (PyList [New BaseKeyPair [PyStr "mykey"]; New BaseKeyPair [PyStr "deploy"]]),
     [nova_keypairs_list])
  /\ KeyPairService_list account_backend std_class_attr [nova_keypairs_list]
     = (Raise (AttributeError "id"), [nova_keypairs_list]).
Proof.
  split.
  - apply (proj1 (KeyPairService_list_by_id account_backend std_class_attr [] _ eq_refl))
      with (ids := [PyStr "mykey"; PyStr "deploy"]).
    repeat constructor.
  - apply (proj2 (KeyPairService_list_by_id account_backend std_class_attr
                    [nova_keypairs_list] _ eq_refl))
      with (pre := [keypair_record "mykey"]) (kp := Resource [("name", PyStr "deploy")])
           (post := []) (e := AttributeError "id").
    + reflexivity.
    + constructor; [| constructor]. now exists (PyStr "mykey").
    + reflexivity.
Defined.

Lemma SecurityGroupService_list_by_record_witness :
  SecurityGroupService_list account_backend std_class_attr []
  = (Ok (PyList [New BaseSecurityGroup [PyStr "sg-1"; PyStr "web"; PyStr "http and https"];
                 New BaseSecurityGroup [PyStr "sg-2"; PyStr "db"; PyStr "postgres"]]),
     [nova_security_groups_list]).
Proof.
  apply (SecurityGroupService_list_by_record account_backend std_class_attr [] _ _ eq_refl).
  constructor; [| constructor; [| constructor]].
  - exists (PyStr "sg-1"), (PyStr "web"), (PyStr "http and https"). repeat split.
  - exists (PyStr "sg-2"), (PyStr "db"), (PyStr "postgres"). repeat split.
Defined.

Section WrappingListings.
Variable backend : backend_t.

Lemma nth_error_map_Some {A B} (f : A -> B) (l : list A) i r :
  nth_error l i = Some r -> nth_error (map f l) i = Some (f r).
Proof. intros H. rewrite nth_error_map, H. reflexivity. Qed.

(** The shape shared by the listings that wrap records without reading them. *)
Lemma wrapping_listing_one_for_one (c : call) (wrap : value -> value) :
  lists_one_for_one backend c wrap
    (records <- nova_cinder backend c ;;
     rs <- iter records ;;
     ret (PyList (map wrap rs))).
Proof.
  intros h records Hb. exists (map wrap records).
  split; [| split].
  - unfold bind, nova_cinder, invoke. rewrite Hb. reflexivity.
  - apply length_map.
  - intros i r. apply nth_error_map_Some.
Qed.

Lemma wrapping_listing_fails (c : call) (wrap : value -> value) :
  listing_fails_with_backend backend c
    (records <- nova_cinder backend c ;;
     rs <- iter records ;;
     ret (PyList (map wrap rs))).
Proof.
  split; intros h; [intros e |]; intros Hb;
    unfold bind, nova_cinder, invoke; rewrite Hb; reflexivity.
Qed.

(** X8.  [list_images], [list_volumes], [list_snapshots], [list_instances],
    [list_regions] and the instance-types [list] return one object per record
    of the backend's listing, the i-th object wrapping the i-th record: no
    record is dropped, repeated or moved. *)
Theorem listings_one_for_one :
  lists_one_for_one backend nova_images_list
    (fun r => New OpenStackMachineImage [Provider; r]) (list_images backend)
  /\ lists_one_for_one backend cinder_volumes_list
       (fun r => New OpenStackVolume [Provider; r]) (list_volumes backend)
  /\ lists_one_for_one backend cinder_volume_snapshots_list
       (fun r => New OpenStackSnapshot [Provider; r]) (list_snapshots backend)
  /\ lists_one_for_one backend nova_servers_list
       (fun r => New OpenStackInstance [Provider; r]) (list_instances backend)
  /\ lists_one_for_one backend (nova_availability_zones_list false)
       (fun r => New OpenStackRegion [Provider; r]) (list_regions backend)
  /\ lists_one_for_one backend nova_flavors_list
       (fun f => New OpenStackInstanceType [f]) (InstanceTypesService_list backend).
Proof.
  repeat split; apply wrapping_listing_one_for_one.
Qed.

(** X9.  When the backend's listing call raises, each of these six listings
    raises the same exception after that one call; when it is answered with
    [None], they raise [TypeError].  No empty or partial list stands in for a
    failed listing. *)
Theorem listings_fail_with_backend :
  listing_fails_with_backend backend nova_images_list (list_images backend)
  /\ listing_fails_with_backend backend cinder_volumes_list (list_volumes backend)
  /\ listing_fails_with_backend backend cinder_volume_snapshots_list
       (list_snapshots backend)
  /\ listing_fails_with_backend backend nova_servers_list (list_instances backend)
  /\ listing_fails_with_backend backend (nova_availability_zones_list false)
       (list_regions backend)
  /\ listing_fails_with_backend backend nova_flavors_list
       (InstanceTypesService_list backend).
Proof.
  repeat apply conj; apply wrapping_listing_fails.
Qed.
End WrappingListings.

Lemma listings_one_for_one_witness :
  exists l,
    list_regions demo_backend [] = (Ok (PyList l), [nova_availability_zones_list false])
    /\ List.length l = 1
    /\ forall i r,
         nth_error [Resource [("zoneName", PyStr "nova")]] i = Some r ->
         nth_error l i = Some (New OpenStackRegion [Provider; r]).
Proof.
  destruct (listings_one_for_one demo_backend) as (_ & _ & _ & _ & Hr & _).
  exact (Hr [] [Resource [("zoneName", PyStr "nova")]] eq_refl).
Defined.

Lemma listings_fail_with_backend_witness :
  list_volumes broken_backend []
  = (Raise (BackendError "connection refused"), [cinder_volumes_list])
  /\ list_volumes mute_backend [] = (Raise TypeError, [cinder_volumes_list]).
Proof.
  destruct (listings_fail_with_backend broken_backend) as (_ & (Hv & _) & _).
  destruct (listings_fail_with_backend mute_backend) as (_ & (_ & Hn) & _).
  split; [apply Hv | apply Hn]; reflexivity.
Defined.

(* ================================================================== *)
(** ** More on the lookup of an instance type by name *)

Section FindByName.
Variable backend : backend_t.
Variable class_attr : class -> list value -> string -> option value.
Variable object_eq : value -> value -> bool.

Local Notation getattr := (getattr class_attr).

(** What the generator passed over, and what it stopped at, when it is asked
    for a string. *)
Lemma next_named_inv (s : string) (l : list value) h x t :
  next_named class_attr object_eq (PyStr s) l h = (Ok x, t) ->
  (x = PyNone /\ Forall (named_otherwise class_attr s) l)
  \/ (exists pre post,
         l = pre ++ x :: post
         /\ Forall (named_otherwise class_attr s) pre
         /\ getattr x "name" = Ok (PyStr s)).
Proof.
  revert h t. induction l as [| itype rest IH]; intros h t; simpl.
  - intros [= <- _]. left. split; [reflexivity | constructor].
  - unfold attr at 1. destruct (getattr itype "name") as [n | e] eqn:Hn.
    + rewrite bind_lift_Ok. destruct (py_eq object_eq n (PyStr s)) eqn:E.
      * intros [= <- _]. apply py_eq_PyStr in E. subst n.
        right. exists [], rest. repeat split; [constructor | assumption].
      * assert (Hne : n <> PyStr s).
        { intros ->. rewrite (proj2 (py_eq_PyStr object_eq (PyStr s) s) eq_refl) in E.
          discriminate. }
        intros Hrest.
        destruct (IH _ _ Hrest) as [(-> & Hall) | (pre & post & -> & Hpre & Hx)].
        -- left. split; [reflexivity |]. constructor; [now exists n | exact Hall].
        -- right. exists (itype :: pre), post. repeat split; try assumption.
           constructor; [now exists n | exact Hpre].
    + rewrite bind_lift_Raise. discriminate.
Qed.

(** X10.  Whatever [find_by_name] returns for a string comes from the
    listing: when it returns [x] for the listing [itypes], either [x] is
    [None] and every listed type has a name other than the string, or [x]
    stands in [itypes], is called by the string, and every type before it is
    called otherwise. *)
Theorem find_by_name_result_is_listed (s : string) h itypes t x t' :
  InstanceTypesService_list backend h = (Ok (PyList itypes), t) ->
  find_by_name backend class_attr object_eq (PyStr s) h = (Ok x, t') ->
  (x = PyNone /\ Forall (named_otherwise class_attr s) itypes)
  \/ (exists pre post,
         itypes = pre ++ x :: post
         /\ Forall (named_otherwise class_attr s) pre
         /\ getattr x "name" = Ok (PyStr s)).
Proof.
  intros Hl Hf. rewrite (find_by_name_run _ _ _ _ _ _ _ Hl) in Hf.
  apply next_named_inv
    with (h := h ++ t)
         (t := snd (next_named class_attr object_eq (PyStr s) itypes (h ++ t))).
  injection Hf as Hx _. rewrite <- Hx. apply surjective_pairing.
Qed.

(** X11.  On every input and whatever the backend answers, [find_by_name]
    makes exactly one client call, the flavor listing: a lookup costs one
    listing, found or not, and it never asks for anything else. *)
Theorem find_by_name_one_call (name : value) h :
  snd (find_by_name backend class_attr object_eq name h) = [nova_flavors_list]
  /\ forall c, In c (snd (find_by_name backend class_attr object_eq name h)) ->
               c = nova_flavors_list.
Proof.
  rewrite find_by_name_trace. split; [reflexivity |].
  intros c [<- | []]. reflexivity.
Qed.

(** X12.  [find_by_name] does not hide failures: when the flavor listing
    raises, it raises the same exception; and, asked for a string, when a
    listed type that comes before any type called by that string has no
    [name], it raises [AttributeError] instead of skipping that type. *)
Theorem find_by_name_failures h :
  (forall name e,
      backend h nova_flavors_list = Raise e ->
      find_by_name backend class_attr object_eq name h = (Raise e, [nova_flavors_list]))
  /\ (forall (s : string) pre x post t e,
         InstanceTypesService_list backend h = (Ok (PyList (pre ++ x :: post)), t) ->
         Forall (named_otherwise class_attr s) pre ->
         getattr x "name" = Raise e ->
         find_by_name backend class_attr object_eq (PyStr s) h
         = (Raise (AttributeError "name"), t)).
Proof.
  split.
  - intros name e Hb. unfold find_by_name. apply bind_Raise.
    unfold InstanceTypesService_list. apply bind_Raise.
    unfold nova_cinder, invoke. now rewrite Hb.
  - intros s pre x post t e Hl Hpre Hx.
    rewrite (find_by_name_run _ _ _ _ _ _ _ Hl).
    assert (Hn : forall h0,
               next_named class_attr object_eq (PyStr s) (pre ++ x :: post) h0
               = (Raise (AttributeError "name"), [])).
    { clear Hl.
      induction Hpre as [| y pre (n & Hy & Hne) _ IH]; intros h0; simpl; unfold attr at 1.
      - rewrite Hx, bind_lift_Raise. now rewrite (getattr_Raise _ _ _ _ Hx).
      - rewrite Hy, bind_lift_Ok.
        destruct (py_eq object_eq n (PyStr s)) eqn:E.
        + apply py_eq_PyStr in E. contradiction.
        + apply IH. }
    rewrite Hn. simpl. now rewrite app_nil_r.
Qed.
End FindByName.

Lemma find_by_name_result_is_listed_witness :
  (New OpenStackInstanceType [flavor "2" "m1.small"] = PyNone
   /\ Forall (named_otherwise std_class_attr "m1.small") demo_itypes)
  \/ (exists pre post,
         demo_itypes = pre ++ New OpenStackInstanceType [flavor "2" "m1.small"] :: post
         /\ Forall (named_otherwise std_class_attr "m1.small") pre
         /\ getattr std_class_attr (New OpenStackInstanceType [flavor "2" "m1.small"]) "name"
            = Ok (PyStr "m1.small")).
Proof.
  exact (find_by_name_result_is_listed demo_backend std_class_attr std_object_eq "m1.small"
           [] demo_itypes [nova_flavors_list] _ [nova_flavors_list] eq_refl eq_refl).
Defined.

Lemma find_by_name_failures_witness :
  find_by_name broken_backend std_class_attr std_object_eq (PyStr "m1.small") []
  = (Raise (BackendError "connection refused"), [nova_flavors_list])
  /\ find_by_name nameless_backend std_class_attr std_object_eq (PyStr "m1.small") []
     = (Raise (AttributeError "name"), [nova_flavors_list]).
Proof.
  split.
  - apply (proj1 (find_by_name_failures broken_backend std_class_attr std_object_eq [])).
    reflexivity.
  - apply (proj2 (find_by_name_failures nameless_backend std_class_attr std_object_eq []))
      with (pre := [New OpenStackInstanceType [flavor "1" "m1.tiny"]])
           (x := New OpenStackInstanceType [Resource [("id", PyStr "2")]])
           (post := [New OpenStackInstanceType [flavor "7" "m1.small"]])
           (e := AttributeError "name").
    + reflexivity.
    + constructor; [| constructor]. apply demo_named_otherwise. discriminate.
    + reflexivity.
Defined.

(* ================================================================== *)
(** ** More on [create_instance] *)

Section CreateInstanceCalls.
Variable backend : backend_t.
Variable subclass : class -> class -> bool.
Variable class_attr : class -> list value -> string -> option value.
Variable object_eq : value -> value -> bool.
Variables name image instance_type zone keypair security_groups user_data : value.
Variables block_device_mapping network_interfaces : value.
Variable kwargs : list (string * value).

(** X13.  Every server [create_instance] asks for is a single one
    ([min_count] and [max_count] are 1), under the name and with the user
    data it was called with, for all arguments and backends. *)
Theorem create_instance_single_server h :
  creates_with (single_server_request name user_data)
    (create_instance backend subclass class_attr object_eq
       name image instance_type zone keypair security_groups user_data
       block_device_mapping network_interfaces kwargs h).
Proof.
  unfold create_instance.
  apply creates_with_bind;
    [apply (avoids_resolve class_attr is_servers_create) | intros image_id _].
  apply creates_with_bind; [apply quiet_instance_size | intros instance_size _].
  apply creates_with_bind;
    [apply (avoids_resolve class_attr is_servers_create) | intros zone_name _].
  apply creates_with_bind;
    [apply (avoids_resolve class_attr is_servers_create) | intros keypair_name _].
  apply creates_with_bind;
    [apply (avoids_security_groups_step subclass class_attr is_servers_create)
    | intros sgl _].
  apply creates_with_servers_create; [reflexivity |].
  simpl. repeat split.
Qed.

(** The calls of the instance-size step. *)
Lemma instance_size_trace h :
  snd ((if isinstance subclass instance_type InstanceType
        then attr class_attr instance_type "name"
        else itype <- find_by_name backend class_attr object_eq instance_type ;;
             attr class_attr itype "id") h)
  = if isinstance subclass instance_type InstanceType then [] else [nova_flavors_list].
Proof.
  destruct (isinstance subclass instance_type InstanceType); [reflexivity |].
  rewrite bind_trace, find_by_name_trace.
  now destruct (fst (find_by_name backend class_attr object_eq instance_type h)).
Qed.

(** X14.  [create_instance] talks to the backend at most twice: it asks for
    the flavor listing exactly when the instance type is no [InstanceType]
    object, and its only other call, the last one, is [servers.create]. *)
Theorem create_instance_calls h :
  let t := snd (create_instance backend subclass class_attr object_eq
                  name image instance_type zone keypair security_groups user_data
                  block_device_mapping network_interfaces kwargs h) in
  let listing := if isinstance subclass instance_type InstanceType
                 then [] else [nova_flavors_list] in
  t = [] \/ t = listing
  \/ exists c, is_servers_create c = true /\ t = listing ++ [c].
Proof.
  cbv zeta. unfold create_instance.
  rewrite bind_trace, resolve_trace. cbn [app].
  destruct (fst ((if isinstance subclass image MachineImage
                  then attr class_attr image "image_id" else ret image) h))
    as [image_id | e]; [| now left].
  rewrite app_nil_r, bind_trace, instance_size_trace.
  set (listing := if isinstance subclass instance_type InstanceType
                  then [] else [nova_flavors_list]).
  match goal with
  | |- context [match fst ?stage with _ => _ end] =>
      destruct (fst stage) as [instance_size | e]
  end; [| right; left; apply app_nil_r].
  rewrite bind_trace, resolve_trace. cbn [app].
  match goal with
  | |- context [match fst ?stage with _ => _ end] =>
      destruct (fst stage) as [zone_name | e]
  end; [| right; left; apply app_nil_r].
  rewrite app_nil_r, bind_trace, resolve_trace. cbn [app].
  match goal with
  | |- context [match fst ?stage with _ => _ end] =>
      destruct (fst stage) as [keypair_name | e]
  end; [| right; left; apply app_nil_r].
  rewrite app_nil_r, bind_trace.
  rewrite (avoids_all_silent _ _
             (avoids_security_groups_step subclass class_attr (fun _ => true)
                security_groups)).
  cbn [app].
  match goal with
  | |- context [match fst ?stage with _ => _ end] =>
      destruct (fst stage) as [sgl | e]
  end; [| right; left; apply app_nil_r].
  right. right.
  exists (nova_servers_create name image_id instance_size 1 1
            zone_name keypair_name sgl user_data).
  split; [reflexivity |].
  f_equal. rewrite bind_trace. simpl.
  now destruct (backend _ _).
Qed.

(** Composing outcomes that end with the backend's answer. *)
Lemma ends_with_reply_bind {A} (m : M call A) (f : A -> M call value) h :
  servers_create_calls (snd (m h)) = [] ->
  (forall a, fst (m h) = Ok a ->
             ends_with_reply backend (h ++ snd (m h)) (f a (h ++ snd (m h)))) ->
  ends_with_reply backend h (bind m f h).
Proof.
  intros Hm Hf.
  destruct (bind_cases m f h) as [(e & _ & ->) | (a & Ha & ->)].
  - left. simpl. split; [exact Hm | now exists e].
  - assert (Hfst : fst (m h) = Ok a) by now rewrite Ha.
    destruct (Hf a Hfst) as [(Hq & e & He) | (pre & c & Ht & Hc & Hpre & Hr)].
    + left. simpl. rewrite servers_create_calls_app, Hm, Hq.
      split; [reflexivity | now exists e].
    + right. exists (snd (m h) ++ pre), c. simpl.
      rewrite Ht, servers_create_calls_app, Hm, Hpre, Hr, !app_assoc.
      repeat split; assumption.
Qed.

(** X15.  [create_instance] adds nothing to the backend's answer: unless it
    raised before asking for a server, its outcome is the answer to its
    [servers.create] call, the record wrapped in an [OpenStackInstance] or the
    exception raised by the client, unchanged. *)
Theorem create_instance_returns_reply h :
  ends_with_reply backend h
    (create_instance backend subclass class_attr object_eq
       name image instance_type zone keypair security_groups user_data
       block_device_mapping network_interfaces kwargs h).
Proof.
  unfold create_instance.
  apply ends_with_reply_bind;
    [apply (avoids_resolve class_attr is_servers_create) | intros image_id _].
  apply ends_with_reply_bind; [apply quiet_instance_size | intros instance_size _].
  apply ends_with_reply_bind;
    [apply (avoids_resolve class_attr is_servers_create) | intros zone_name _].
  apply ends_with_reply_bind;
    [apply (avoids_resolve class_attr is_servers_create) | intros keypair_name _].
  apply ends_with_reply_bind;
    [apply (avoids_security_groups_step subclass class_attr is_servers_create)
    | intros sgl _].
  right.
  exists [], (nova_servers_create name image_id instance_size 1 1
                zone_name keypair_name sgl user_data).
  rewrite app_nil_r. unfold bind, nova_cinder, invoke, ret.
  destruct (backend _ _); repeat split.
Qed.
End CreateInstanceCalls.

Section SecurityGroupArgument.
Variable backend : backend_t.
Variable subclass : class -> class -> bool.
Variable class_attr : class -> list value -> string -> option value.
Variable object_eq : value -> value -> bool.
Variables name image instance_type zone keypair user_data : value.
Variables block_device_mapping network_interfaces : value.
Variable kwargs : list (string * value).

(** X16.  Security groups that are not a list headed by a [SecurityGroup]
    object (a list of names, a single name, a list whose first element is a
    name whatever follows it) reach [servers.create] exactly as they were
    given: when the image, instance type, zone and keypair resolve, the call
    is issued with them, after the calls of the instance-size step and
    nothing else, and its answer is the outcome; and no [servers.create] call
    with other groups goes out in any case.  Only the first element decides
    whether names are extracted. *)
Theorem create_instance_security_groups_as_given security_groups h :
  truthy security_groups = true ->
  is_list security_groups
  && isinstance subclass (item0 security_groups) SecurityGroup = false ->
  (forall image_id instance_size listing zone_name keypair_name,
      (if isinstance subclass image MachineImage
       then getattr class_attr image "image_id" else Ok image) = Ok image_id ->
      instance_size_step backend subclass class_attr object_eq instance_type h
      = (Ok instance_size, listing) ->
      (if isinstance subclass zone PlacementZone
       then getattr class_attr zone "name" else Ok zone) = Ok zone_name ->
      (if isinstance subclass keypair KeyPair
       then getattr class_attr keypair "name" else Ok keypair) = Ok keypair_name ->
      create_instance backend subclass class_attr object_eq
        name image instance_type zone keypair security_groups user_data
        block_device_mapping network_interfaces kwargs h
      = (wrapped_reply OpenStackInstance
           (backend (h ++ listing)
              (nova_servers_create name image_id instance_size 1 1
                 zone_name keypair_name security_groups user_data)),
         listing ++ [nova_servers_create name image_id instance_size 1 1
                       zone_name keypair_name security_groups user_data]))
  /\ creates_with (fun c => security_groups_of c = Some security_groups)
       (create_instance backend subclass class_attr object_eq
          name image instance_type zone keypair security_groups user_data
          block_device_mapping network_interfaces kwargs h).
Proof.
  intros Ht Hl. split.
  - intros image_id instance_size listing zone_name keypair_name Himg Hsize Hzone Hkp.
    apply create_instance_run; try assumption.
    unfold security_groups_step. now rewrite Ht, Hl.
  - apply create_instance_security_groups_sent.
    intros h'. now rewrite Ht, Hl.
Qed.

(** X17.  A list headed by a [SecurityGroup] object is read as a list of
    objects throughout: if one of its elements has no [name] (a plain string
    among the objects), [create_instance] raises and asks for no server. *)
Theorem create_instance_mixed_security_groups pre x post e h :
  isinstance subclass (item0 (PyList (pre ++ x :: post))) SecurityGroup = true ->
  Forall (fun sg => exists n, getattr class_attr sg "name" = Ok n) pre ->
  getattr class_attr x "name" = Raise e ->
  servers_create_calls
    (snd (create_instance backend subclass class_attr object_eq
            name image instance_type zone keypair (PyList (pre ++ x :: post)) user_data
            block_device_mapping network_interfaces kwargs h)) = []
  /\ exists e',
      fst (create_instance backend subclass class_attr object_eq
             name image instance_type zone keypair (PyList (pre ++ x :: post)) user_data
             block_device_mapping network_interfaces kwargs h) = Raise e'.
Proof.
  intros Hhd Hpre Hx.
  assert (Hstep : forall h',
             (if truthy (PyList (pre ++ x :: post)) then
                if is_list (PyList (pre ++ x :: post))
                   && isinstance subclass (item0 (PyList (pre ++ x :: post))) SecurityGroup
                then l <- iter (PyList (pre ++ x :: post)) ;;
                     ns <- mapM (fun sg => attr class_attr sg "name") l ;;
                     ret (PyList ns)
                else ret (PyList (pre ++ x :: post))
              else ret PyNone) h' = (Raise (AttributeError "name"), [])).
  { intros h'. rewrite Hhd.
    replace (truthy (PyList (pre ++ x :: post))) with true by now destruct pre.
    cbn [is_list andb iter]. rewrite bind_ret.
    apply bind_Raise. apply mapM_first_Raise.
    - eapply Forall_impl; [| exact Hpre].
      intros sg (n & Hn). exists n. intros h0. unfold attr. now rewrite Hn.
    - intros h0. unfold attr. rewrite Hx. now rewrite (getattr_Raise _ _ _ _ Hx). }
  assert (Hout : creates_with (fun _ => False)
                   (create_instance backend subclass class_attr object_eq
                      name image instance_type zone keypair (PyList (pre ++ x :: post))
                      user_data block_device_mapping network_interfaces kwargs h)).
  { unfold create_instance.
    apply creates_with_bind;
      [apply (avoids_resolve class_attr is_servers_create) | intros image_id _].
    apply creates_with_bind; [apply quiet_instance_size | intros instance_size _].
    apply creates_with_bind;
      [apply (avoids_resolve class_attr is_servers_create) | intros zone_name _].
    apply creates_with_bind;
      [apply (avoids_resolve class_attr is_servers_create) | intros keypair_name _].
    apply creates_with_bind; rewrite Hstep; [reflexivity | discriminate]. }
  destruct Hout as [Hleft | (c & _ & [])]. exact Hleft.
Qed.
End SecurityGroupArgument.

Lemma create_instance_security_groups_as_given_witness :
  create_instance demo_backend std_subclass std_class_attr std_object_eq
    (PyStr "vm") image1 small zone1 keypair1 (PyList [PyStr "web"; db])
    PyNone PyNone PyNone [] []
  = (Ok (New OpenStackInstance
           [Provider;
            Resource [("id", PyStr "srv-1"); ("name", PyStr "vm");
                      ("image", PyStr "img-1"); ("flavor", PyStr "m1.small")]]),
     [nova_servers_create (PyStr "vm") (PyStr "img-1") (PyStr "m1.small") 1 1
        (PyStr "nova") (PyStr "mykey") (PyList [PyStr "web"; db]) PyNone]).
Proof.
  exact (proj1 (create_instance_security_groups_as_given demo_backend std_subclass
                  std_class_attr std_object_eq (PyStr "vm") image1 small zone1 keypair1
                  PyNone PyNone PyNone [] (PyList [PyStr "web"; db]) [] eq_refl eq_refl)
           (PyStr "img-1") (PyStr "m1.small") [] (PyStr "nova") (PyStr "mykey")
           eq_refl eq_refl eq_refl eq_refl).
Defined.

Lemma create_instance_mixed_security_groups_witness :
  servers_create_calls
    (snd (create_instance demo_backend std_subclass std_class_attr std_object_eq
            (PyStr "vm") image1 small zone1 keypair1 (PyList [web; PyStr "db"])
            PyNone PyNone PyNone [] [])) = []
  /\ exists e',
      fst (create_instance demo_backend std_subclass std_class_attr std_object_eq
             (PyStr "vm") image1 small zone1 keypair1 (PyList [web; PyStr "db"])
             PyNone PyNone PyNone [] []) = Raise e'.
Proof.
  apply (create_instance_mixed_security_groups demo_backend std_subclass std_class_attr std_object_eq
           (PyStr "vm") image1 small zone1 keypair1 PyNone PyNone PyNone []
           [web] (PyStr "db") [] (AttributeError "name") []).
  - reflexivity.
  - constructor; [| constructor]. now exists (PyStr "web").
  - reflexivity.
Defined.

(* ================================================================== *)
(** ** More on volumes and snapshots *)

Section BlockStore.
Variable backend : backend_t.
Variable subclass : class -> class -> bool.
Variable class_attr : class -> list value -> string -> option value.

(** X18.  [create_volume] and [create_snapshot] either raise
    [AttributeError] while resolving an argument, before any client call, or
    make exactly one client call, the create, and return its answer: the
    record wrapped, or the exception the client raised, unchanged. *)
Theorem block_store_create_outcome :
  (forall name size zone snapshot h,
      (exists a,
          create_volume backend subclass class_attr name size zone snapshot h
          = (Raise (AttributeError a), []))
      \/ (exists zone_name snapshot_id,
             create_volume backend subclass class_attr name size zone snapshot h
             = (wrapped_reply OpenStackVolume
                  (backend h (cinder_volumes_create size name zone_name snapshot_id)),
                [cinder_volumes_create size name zone_name snapshot_id])))
  /\ (forall name volume description h,
         create_snapshot backend subclass class_attr name volume description h
         = (Raise (AttributeError "volume_id"), [])
         \/ (exists volume_id,
                create_snapshot backend subclass class_attr name volume description h
                = (wrapped_reply OpenStackSnapshot
                     (backend h (cinder_volume_snapshots_create volume_id name description)),
                   [cinder_volume_snapshots_create volume_id name description]))).
Proof.
  split.
  - intros name size zone snapshot h.
    destruct (if isinstance subclass zone PlacementZone
              then getattr class_attr zone "name" else Ok zone)
      as [zone_name | e] eqn:Hz.
    + destruct (if isinstance subclass zone OpenStackSnapshot && truthy snapshot
                then getattr class_attr snapshot "snapshot_id" else Ok snapshot)
        as [snapshot_id | e] eqn:Hs.
      * right. exists zone_name, snapshot_id.
        now apply create_volume_run.
      * left. exists "snapshot_id".
        unfold create_volume.
        rewrite !resolve_lift, Hz, bind_lift_Ok, Hs, bind_lift_Raise.
        destruct (isinstance subclass zone OpenStackSnapshot && truthy snapshot);
          [| discriminate].
        now rewrite (getattr_Raise _ _ _ _ Hs).
    + left. exists "name".
      unfold create_volume. rewrite resolve_lift, Hz, bind_lift_Raise.
      destruct (isinstance subclass zone PlacementZone); [| discriminate].
      now rewrite (getattr_Raise _ _ _ _ Hz).
  - intros name volume description h.
    destruct (if isinstance subclass volume OpenStackVolume
              then getattr class_attr volume "volume_id" else Ok volume)
      as [volume_id | e] eqn:Hv.
    + right. exists volume_id. now apply create_snapshot_run.
    + left. unfold create_snapshot. rewrite resolve_lift, Hv, bind_lift_Raise.
      destruct (isinstance subclass volume OpenStackVolume); [| discriminate].
      now rewrite (getattr_Raise _ _ _ _ Hv).
Qed.

(** X19.  [create_volume] replaces the snapshot argument by its
    [snapshot_id] in one case only, a zone argument that is an
    [OpenStackSnapshot] together with a truthy snapshot (and raises
    [AttributeError] there when the snapshot has no [snapshot_id]); whenever
    the snapshot is omitted or falsy, or the zone is anything else, the
    backend receives the snapshot argument as it was given. *)
Theorem create_volume_snapshot_resolution name size zone snapshot h :
  (truthy snapshot = false \/ isinstance subclass zone OpenStackSnapshot = false ->
   forall c,
     In c (snd (create_volume backend subclass class_attr name size zone snapshot h)) ->
     exists zone_name, c = cinder_volumes_create size name zone_name snapshot)
  /\ (isinstance subclass zone OpenStackSnapshot = true ->
      truthy snapshot = true ->
      (forall snapshot_id,
          getattr class_attr snapshot "snapshot_id" = Ok snapshot_id ->
          forall c,
            In c (snd (create_volume backend subclass class_attr name size zone snapshot h)) ->
            exists zone_name, c = cinder_volumes_create size name zone_name snapshot_id)
      /\ (forall e,
             getattr class_attr snapshot "snapshot_id" = Raise e ->
             exists a,
               create_volume backend subclass class_attr name size zone snapshot h
               = (Raise (AttributeError a), []))).
Proof.
  assert (Hgen : forall snapshot_id,
             (if isinstance subclass zone OpenStackSnapshot && truthy snapshot
              then getattr class_attr snapshot "snapshot_id" else Ok snapshot)
             = Ok snapshot_id ->
             forall c,
               In c (snd (create_volume backend subclass class_attr
                            name size zone snapshot h)) ->
               exists zone_name, c = cinder_volumes_create size name zone_name snapshot_id).
  { intros snapshot_id Hs c.
    destruct (if isinstance subclass zone PlacementZone
              then getattr class_attr zone "name" else Ok zone)
      as [zone_name | e] eqn:Hz.
    - rewrite (create_volume_run _ _ _ _ _ _ _ _ _ _ Hz Hs). simpl.
      intros [<- | []]. now exists zone_name.
    - unfold create_volume. rewrite resolve_lift, Hz, bind_lift_Raise. intros []. }
  split.
  - intros Hcase. apply Hgen.
    destruct Hcase as [-> | ->]; [now rewrite andb_false_r | reflexivity].
  - intros Hz Ht. split.
    + intros snapshot_id Hs. apply Hgen. now rewrite Hz, Ht.
    + intros e Hs. unfold create_volume. rewrite !resolve_lift.
      destruct (if isinstance subclass zone PlacementZone
                then getattr class_attr zone "name" else Ok zone)
        as [zn | e0] eqn:Hzn.
      * exists "snapshot_id".
        rewrite bind_lift_Ok, Hz, Ht. cbn [andb].
        rewrite Hs, bind_lift_Raise. now rewrite (getattr_Raise _ _ _ _ Hs).
      * exists "name". rewrite bind_lift_Raise.
        destruct (isinstance subclass zone PlacementZone); [| discriminate].
        now rewrite (getattr_Raise _ _ _ _ Hzn).
Qed.
End BlockStore.

Lemma create_volume_snapshot_resolution_witness :
  (forall c,
      In c (snd (create_volume demo_backend std_subclass std_class_attr
                   (PyStr "data") (PyInt 10) zone1 PyNone [])) ->
      exists zone_name, c = cinder_volumes_create (PyInt 10) (PyStr "data") zone_name PyNone)
  /\ (forall c,
         In c (snd (create_volume demo_backend std_subclass std_class_attr
                      (PyStr "data") (PyInt 10) snapshot1 snapshot1 [])) ->
         exists zone_name,
           c = cinder_volumes_create (PyInt 10) (PyStr "data") zone_name (PyStr "snap-1"))
  /\ exists a,
      create_volume demo_backend std_subclass std_class_attr
        (PyStr "data") (PyInt 10) snapshot1 (PyStr "snap-1") []
      = (Raise (AttributeError a), []).
Proof.
  split; [| split].
  - apply (proj1 (create_volume_snapshot_resolution demo_backend std_subclass
                    std_class_attr (PyStr "data") (PyInt 10) zone1 PyNone [])).
    left. reflexivity.
  - apply (proj1 (proj2 (create_volume_snapshot_resolution demo_backend std_subclass
                           std_class_attr (PyStr "data") (PyInt 10) snapshot1 snapshot1 [])
                    eq_refl eq_refl)).
    reflexivity.
  - apply (proj2 (proj2 (create_volume_snapshot_resolution demo_backend std_subclass
                           std_class_attr (PyStr "data") (PyInt 10) snapshot1
                           (PyStr "snap-1") [])
                    eq_refl eq_refl))
      with (e := AttributeError "snapshot_id").
    reflexivity.
Defined.

(* ================================================================== *)
(** ** More on key pairs *)

Section KeyPairFailures.
Variable obj : Type.
Variable crypto : list (crypto_call obj) -> crypto_call obj -> result obj.



(** X21.  The two parts [generate_key_pair] returns belong to one key: the
    private part is serialised from the key object the one key generation of
    this call returned, the public key is taken from that same object, and
    the public part is serialised from what that returned. *)
Theorem generate_key_pair_one_key h c :
  In c (snd (generate_key_pair crypto h)) ->
  match c with
  | private_bytes k _ _ _ | public_key k =>
      exists be,
        crypto h default_backend = Ok be
        /\ crypto (h ++ [default_backend]) (rsa_generate_private_key be 65537 2048) = Ok k
  | public_bytes pk _ _ =>
      exists be k private,
        crypto (h ++ [default_backend]) (rsa_generate_private_key be 65537 2048) = Ok k
        /\ crypto (h ++ [default_backend; rsa_generate_private_key be 65537 2048;
                         private_bytes k Encoding.PEM PrivateFormat.PKCS8 NoEncryption])
             (public_key k) = Ok pk
        /\ In (private_bytes k Encoding.PEM PrivateFormat.PKCS8 NoEncryption)
             (snd (generate_key_pair crypto h))
        /\ crypto (h ++ [default_backend; rsa_generate_private_key be 65537 2048])
             (private_bytes k Encoding.PEM PrivateFormat.PKCS8 NoEncryption) = Ok private
  | _ => True
  end.
Proof.
  unfold generate_key_pair, bind, invoke, ret.
  destruct (crypto h default_backend) as [be | e0] eqn:H1; simpl.
  2: { intros [<- | []]. exact I. }
  destruct (crypto (h ++ [default_backend]) (rsa_generate_private_key be 65537 2048))
    as [k | e1] eqn:H2; simpl.
  2: { intros [<- | [<- | []]]; exact I. }
  rewrite <- !app_assoc. simpl.
  destruct (crypto (h ++ [default_backend; rsa_generate_private_key be 65537 2048])
              (private_bytes k Encoding.PEM PrivateFormat.PKCS8 NoEncryption))
    as [private | e2] eqn:H3; simpl.
  2: { intros [<- | [<- | [<- | []]]]; try exact I. now exists be. }
  rewrite <- ?app_assoc. simpl.
  destruct (crypto (h ++ [default_backend; rsa_generate_private_key be 65537 2048;
                          private_bytes k Encoding.PEM PrivateFormat.PKCS8 NoEncryption])
              (public_key k)) as [pk | e3] eqn:H4; simpl.
  2: { intros [<- | [<- | [<- | [<- | []]]]]; try exact I; now exists be. }
  rewrite <- ?app_assoc. simpl.
  destruct (crypto _ (public_bytes pk Encoding.OpenSSH PublicFormat.OpenSSH));
    simpl; intros [<- | [<- | [<- | [<- | [<- | []]]]]];
    try exact I; try (now exists be); exists be, k, private;
    (split; [exact H2 | split; [exact H4 | split; [| exact H3]]]);
    right; right; left; reflexivity.
Qed.
End KeyPairFailures.


Lemma generate_key_pair_one_key_witness :
  exists be k private,
    counting_crypto ([] ++ [default_backend]) (rsa_generate_private_key be 65537 2048) = Ok k
    /\ counting_crypto
         ([] ++ [default_backend; rsa_generate_private_key be 65537 2048;
                 private_bytes k Encoding.PEM PrivateFormat.PKCS8 NoEncryption])
         (public_key k) = Ok 3
    /\ In (private_bytes k Encoding.PEM PrivateFormat.PKCS8 NoEncryption)
         (snd (generate_key_pair counting_crypto []))
    /\ counting_crypto ([] ++ [default_backend; rsa_generate_private_key be 65537 2048])
         (private_bytes k Encoding.PEM PrivateFormat.PKCS8 NoEncryption) = Ok private.
Proof.
  apply (generate_key_pair_one_key nat counting_crypto []
           (public_bytes 3 Encoding.OpenSSH PublicFormat.OpenSSH)).
  simpl. tauto.
Defined.
